(** * venus-backend: the authentication server and its reset-code state machine

    A shallow embedding of the three variants of [server.js] found in the
    repository:

    - [Production] : "server.js - Production Ready"
    - [Render]     : "server.js - Stable Production Version for Render"
    - [Legacy]     : "server.js / Node/Express + Postgres auth server"

    The Express handlers are written in a small monad [IO] that threads the
    relational store and the mail transport (state), reads what the
    environment decides for one request (clock, random draws, SMTP outcome)
    and can throw, so that [try ... catch] of the source is kept.

    The libraries the handlers call (bcrypt, jsonwebtoken, express-validator)
    are not part of the repository.  Their keyed primitives are taken as
    parameters ([Externals]); the wrapping around them is modelled from the
    specification. *)

From Stdlib Require Import ZArith NArith List Ascii String Bool Lia.
From Stdlib Require Import DecimalString DecimalFacts DecimalN.
Import ListNotations.

Local Open Scope string_scope.
Local Open Scope Z_scope.

(** ** Values exchanged with the libraries *)

(** A bcrypt digest string ["$2b$<cost>$<salt><body>"], kept as its fields. *)
Record Digest := mkDigest {
  d_cost : Z;
  d_salt : string;
  d_body : string
}.

(** The payload of a session token: what [jwt.sign] is given ([id], [email])
    plus the two timestamps it adds, in seconds. *)
Record Payload := mkPayload {
  p_id : Z;
  p_email : string;
  iat : Z;
  exp : Z
}.

(** A JSON web token, kept as payload and signature. *)
Record Token := mkToken {
  tok_payload : Payload;
  tok_sig : string
}.

(** The primitives that stay abstract: the address syntax check of
    express-validator, the key derivation inside bcrypt and the MAC inside
    jsonwebtoken. *)
Class Externals := {
  isEmail : string -> bool;
  bcrypt_kdf : Z -> string -> string -> string;
  hmac : string -> Payload -> string
}.

(** ** The table [users1]

    [CREATE TABLE IF NOT EXISTS users1 (id SERIAL PRIMARY KEY,
       email VARCHAR(255) UNIQUE NOT NULL, password VARCHAR(255) NOT NULL,
       reset_otp VARCHAR(10), reset_expires TIMESTAMP)] *)
Module Col.
Record User := mkUser {
  id : Z;
  email : string;
  password : Digest;
  reset_otp : option string;
  reset_expires : option Z
}.
End Col.
Abbreviation User := Col.User.
Abbreviation mkUser := Col.mkUser.

(** The rows in insertion order and the last value handed out by the
    sequence behind [id SERIAL]. *)
Record Table := mkTable {
  rows : list User;
  last_id : Z
}.

Definition empty_table : Table := mkTable [] 0.

(** A message handed to [transporter.sendMail]. *)
Record Mail := mkMail {
  mail_to : string;
  mail_otp : string
}.

(** The state the handlers share: the table and the mails handed to the
    transport so far (most recent first). *)
Record World := mkWorld {
  users1 : Table;
  outbox : list Mail
}.

Definition empty_world : World := mkWorld empty_table [].

(** What the environment decides for one request.  [NOW] is the timestamp
    PostgreSQL gives to [NOW()], in microseconds; [Date_now] is the clock of
    the Node process, in milliseconds; [random_draw] is
    [Math.floor(Math.random() * 900000)]; [gen_salt] is the salt bcrypt draws;
    [smtp_ok] tells whether the transport delivers. *)
Record Env := mkEnv {
  NOW : Z;
  Date_now : Z;
  random_draw : Z;
  gen_salt : string;
  smtp_ok : bool
}.

(** Process-wide configuration, fixed at start. *)
Record Config := mkConfig {
  JWT_SECRET : string;
  transporter : bool   (* whether [nodemailer.createTransport] gave a transporter *)
}.

Definition OTP_EXP_MINUTES : Z := 5.
Definition SALT_ROUNDS : Z := 10.

(** [INTERVAL 'm minutes'] in microseconds. *)
Definition minutes (m : Z) : Z := m * 60 * 1000000.

(** ** The handler monad: reader of [Env], state of [World], exceptions *)

Inductive Exn :=
| UniqueViolation      (* PostgreSQL 23505 on [users1_email_key] *)
| TypeError            (* reading a property of [undefined] *)
| SmtpError            (* [sendMail] rejected *)
| JsonWebTokenError    (* [jwt.verify]: bad signature *)
| TokenExpiredError.   (* [jwt.verify]: [exp] reached *)

Inductive Outcome (A : Type) :=
| Returned (a : A)
| Thrown (e : Exn).
Arguments Returned {A} a.
Arguments Thrown {A} e.

Definition IO (A : Type) : Type := Env -> World -> Outcome A * World.

Definition ret {A} (a : A) : IO A := fun _ w => (Returned a, w).

Definition throw {A} (e : Exn) : IO A := fun _ w => (Thrown e, w).

Definition bind {A B} (c : IO A) (k : A -> IO B) : IO B :=
  fun env w =>
    match c env w with
    | (Returned a, w') => k a env w'
    | (Thrown e, w') => (Thrown e, w')
    end.

Definition try_catch {A} (c : IO A) (handler : Exn -> IO A) : IO A :=
  fun env w =>
    match c env w with
    | (Returned a, w') => (Returned a, w')
    | (Thrown e, w') => handler e env w'
    end.

Definition ask : IO Env := fun env w => (Returned env, w).

Notation "x <- c ;; k" := (bind c (fun x => k))
  (at level 61, c at next level, right associativity).
Notation "'try' c 'catch' h" := (try_catch c h)
  (at level 61, c at level 61, h at level 9).

(** ** SQL statements on [users1] *)

Module Sql.

Definition email_is (e : string) (u : User) : bool := String.eqb (Col.email u) e.
Definition id_is (i : Z) (u : User) : bool := Z.eqb (Col.id u) i.

(** [reset_otp = $2]: never true on NULL. *)
Definition otp_is (otp : string) (u : User) : bool :=
  match Col.reset_otp u with
  | Some c => String.eqb c otp
  | None => false
  end.

(** [reset_expires > NOW()]: never true on NULL. *)
Definition expires_after (now : Z) (u : User) : bool :=
  match Col.reset_expires u with
  | Some t => now <? t
  | None => false
  end.

(** [SELECT * FROM users1 WHERE email = $1] *)
Definition select_by_email (e : string) (t : Table) : list User :=
  filter (email_is e) (rows t).

(** [SELECT * FROM users1 WHERE id = $1] *)
Definition select_by_id (i : Z) (t : Table) : list User :=
  filter (id_is i) (rows t).

(** [SELECT * FROM users1 WHERE email=$1 AND reset_otp=$2 AND reset_expires > NOW()] *)
Definition select_reset (e otp : string) (now : Z) (t : Table) : list User :=
  filter (fun u => email_is e u && otp_is otp u && expires_after now u) (rows t).

(** [INSERT INTO users1 (email, password) VALUES ($1, $2)].  The sequence
    is advanced before the constraint on [email] is checked; the two reset
    columns take their default, NULL. *)
Definition insert (e : string) (pw : Digest) (t : Table) : option Exn * Table :=
  let i := last_id t + 1 in
  if existsb (email_is e) (rows t)
  then (Some UniqueViolation, mkTable (rows t) i)
  else (None, mkTable (rows t ++ [mkUser i e pw None None]) i).

Definition update_where (p : User -> bool) (f : User -> User) (t : Table) : Table :=
  mkTable (map (fun u => if p u then f u else u) (rows t)) (last_id t).

Definition set_reset (otp : string) (expires : Z) (u : User) : User :=
  mkUser (Col.id u) (Col.email u) (Col.password u) (Some otp) (Some expires).

Definition set_password_clear_reset (pw : Digest) (u : User) : User :=
  mkUser (Col.id u) (Col.email u) pw None None.

Definition set_password (pw : Digest) (u : User) : User :=
  mkUser (Col.id u) (Col.email u) pw (Col.reset_otp u) (Col.reset_expires u).

(** [UPDATE users1 SET reset_otp = $1, reset_expires = NOW() + INTERVAL '5 minutes' WHERE email = $2] *)
Definition update_reset (otp e : string) (now : Z) (t : Table) : Table :=
  update_where (email_is e) (set_reset otp (now + minutes 5)) t.

(** [UPDATE users1 SET password=$1, reset_otp=NULL, reset_expires=NULL WHERE email=$2] *)
Definition update_password_clear_reset (pw : Digest) (e : string) (t : Table) : Table :=
  update_where (email_is e) (set_password_clear_reset pw) t.

(** [UPDATE users1 SET password=$1 WHERE id=$2] *)
Definition update_password (pw : Digest) (i : Z) (t : Table) : Table :=
  update_where (id_is i) (set_password pw) t.

End Sql.

(** [dbQuery] with each of the statements the handlers issue. *)
Module Db.

Definition on_table (f : Table -> Table) : IO unit :=
  fun _ w => (Returned tt, mkWorld (f (users1 w)) (outbox w)).

Definition select_by_email (e : string) : IO (list User) :=
  fun _ w => (Returned (Sql.select_by_email e (users1 w)), w).

Definition select_by_id (i : Z) : IO (list User) :=
  fun _ w => (Returned (Sql.select_by_id i (users1 w)), w).

(** [SELECT id, email FROM users1 WHERE id = $1] *)
Definition select_id_email_by_id (i : Z) : IO (list (Z * string)) :=
  fun _ w => (Returned (map (fun u => (Col.id u, Col.email u)) (Sql.select_by_id i (users1 w))), w).

Definition select_reset (e otp : string) : IO (list User) :=
  fun env w => (Returned (Sql.select_reset e otp (NOW env) (users1 w)), w).

Definition insert (e : string) (pw : Digest) : IO unit :=
  fun _ w =>
    match Sql.insert e pw (users1 w) with
    | (Some err, t) => (Thrown err, mkWorld t (outbox w))
    | (None, t) => (Returned tt, mkWorld t (outbox w))
    end.

Definition update_reset (otp e : string) : IO unit :=
  fun env w => on_table (Sql.update_reset otp e (NOW env)) env w.

Definition update_password_clear_reset (pw : Digest) (e : string) : IO unit :=
  on_table (Sql.update_password_clear_reset pw e).

Definition update_password (pw : Digest) (i : Z) : IO unit :=
  on_table (Sql.update_password pw i).

End Db.

(** ** The libraries *)

(** Modelled from the spec: bcrypt, which is not part of the repository
    ("hash(plaintext) -> digest ... distinct salt per call",
    "verify(plaintext, digest) -> bool").  [hash] draws a salt and stores it
    with the cost next to the derived key; [compare] derives the key again
    from the stored salt and cost. *)
Module Bcrypt.
Section WithExternals.
Context {ext : Externals}.

Definition digest (data : string) (rounds : Z) (salt : string) : Digest :=
  mkDigest rounds salt (bcrypt_kdf rounds salt data).

Definition compare_digest (data : string) (encrypted : Digest) : bool :=
  String.eqb (bcrypt_kdf (d_cost encrypted) (d_salt encrypted) data) (d_body encrypted).

Definition hash (data : string) (rounds : Z) : IO Digest :=
  env <- ask ;; ret (digest data rounds (gen_salt env)).

Definition compare (data : string) (encrypted : Digest) : IO bool :=
  ret (compare_digest data encrypted).

End WithExternals.
End Bcrypt.

(** Modelled from the spec: jsonwebtoken, which is not part of the repository
    ("issue(claims) -> token signs {accountId, email, issuedAt,
    expiresAt=issuedAt+1h} with a server secret using a symmetric MAC
    scheme", "verify(token) -> claims | fails EXPIRED | fails
    INVALID_SIGNATURE").  Times are in seconds. *)
Module Jwt.
Section WithExternals.
Context {ext : Externals}.

Definition seconds (date_now : Z) : Z := date_now / 1000.

Definition sign_at (i : Z) (e : string) (secret : string) (expiresIn : Z) (date_now : Z) : Token :=
  let p := mkPayload i e (seconds date_now) (seconds date_now + expiresIn) in
  mkToken p (hmac secret p).

Definition verify_at (t : Token) (secret : string) (date_now : Z) : Exn + Payload :=
  if negb (String.eqb (tok_sig t) (hmac secret (tok_payload t))) then inl JsonWebTokenError
  else if exp (tok_payload t) <=? seconds date_now then inl TokenExpiredError
  else inr (tok_payload t).

Definition sign (i : Z) (e : string) (secret : string) (expiresIn : Z) : IO Token :=
  env <- ask ;; ret (sign_at i e secret expiresIn (Date_now env)).

Definition verify (t : Token) (secret : string) : IO Payload :=
  env <- ask ;;
  match verify_at t secret (Date_now env) with
  | inl e => throw e
  | inr p => ret p
  end.

End WithExternals.
End Jwt.

Definition one_hour : Z := 3600.

(** Modelled from the spec: the two express-validator chains of the signup
    route, [body('email').isEmail()] and [body('password').isLength({ min: 6 })]
    ("reject if email fails format validation or password shorter than 6
    characters").  The result lists the fields that failed. *)
Definition validationResult {ext : Externals} (email password : string) : list string :=
  (if isEmail email then [] else ["email"]) ++
  (if (6 <=? Z.of_nat (String.length password)) then [] else ["password"]).

Definition isEmpty (errors : list string) : bool :=
  match errors with [] => true | _ => false end.

(** [transporter.sendMail(mail)] *)
Definition sendMail (mail : Mail) : IO unit :=
  fun env w =>
    (if smtp_ok env then Returned tt else Thrown SmtpError,
     mkWorld (users1 w) (mail :: outbox w)).

(** [String(n)] for a non-negative integer. *)
Definition String_of (n : Z) : string := NilZero.string_of_uint (N.to_uint (Z.to_N n)).

(** [String(Math.floor(100000 + Math.random() * 900000))] *)
Definition otp_of_draw (draw : Z) : string := String_of (100000 + draw).

Definition generateOtp : IO string :=
  env <- ask ;; ret (otp_of_draw (random_draw env)).

(** ** Requests and responses *)

(** The [Authorization] header as the middleware sees it after
    [header.split(' ')]. *)
Inductive Authorization :=
| NoHeader
| NotBearer
| Bearer (token : Token).

(** The JSON bodies the routes answer with. *)
Inductive Json :=
| JMessage (message : string)                          (* { message } *)
| JError (error : string)                             (* { error } *)
| JErrors (errors : list string)                      (* { errors: [...] } *)
| JSession (token : Token) (uid : Z) (uemail : string) (* { token, user: { id, email } } *)
| JUser (uid : Z) (uemail : string).                  (* { user: { id, email } } *)

Record Response := mkResponse {
  status : Z;
  json : Json
}.

(** [res.status(s).json(j)] and [res.json(j)] *)
Definition res_status_json (s : Z) (j : Json) : IO Response := ret (mkResponse s j).
Definition res_json (j : Json) : IO Response := ret (mkResponse 200 j).

(** [result.rows[0].password], which throws when there is no row. *)
Definition password_of_first (result : list User) : IO Digest :=
  match result with
  | user :: _ => ret (Col.password user)
  | [] => throw TypeError
  end.

(** * Variant "Production Ready" *)
Module Production.
Section Routes.
Context {ext : Externals}.
Variable cfg : Config.

Definition sendOtpEmail (toEmail otp : string) : IO bool :=
  if negb (transporter cfg) then ret false
  else try (_ <- sendMail (mkMail toEmail otp) ;; ret true)
       catch (fun _ => ret false).

Definition verifyToken (header : Authorization) (next : Payload -> IO Response) : IO Response :=
  match header with
  | NoHeader => res_status_json 401 (JError "No token provided")
  | NotBearer => res_status_json 401 (JError "Malformed token")
  | Bearer token =>
      checked <- (try (payload <- Jwt.verify token (JWT_SECRET cfg) ;; ret (Some payload))
                  catch (fun _ => ret None)) ;;
      match checked with
      | Some payload => next payload
      | None => res_status_json 401 (JError "Invalid token")
      end
  end.

(** [POST /api/auth/signup] *)
Definition signup (email password : string) : IO Response :=
  let errors := validationResult email password in
  if negb (isEmpty errors) then res_status_json 400 (JErrors errors)
  else
    try (existingUser <- Db.select_by_email email ;;
         if (0 <? Z.of_nat (List.length existingUser))
         then res_status_json 400 (JError "User already exists")
         else
           hashed <- Bcrypt.hash password SALT_ROUNDS ;;
           _ <- Db.insert email hashed ;;
           res_json (JMessage "Signup successful"))
    catch (fun _ => res_status_json 500 (JError "Signup failed")).

(** [POST /api/auth/login] *)
Definition login (email password : string) : IO Response :=
  try (result <- Db.select_by_email email ;;
       match result with
       | [] => res_status_json 401 (JError "Invalid credentials")
       | user :: _ =>
           matched <- Bcrypt.compare password (Col.password user) ;;
           if negb matched then res_status_json 401 (JError "Invalid credentials")
           else
             token <- Jwt.sign (Col.id user) (Col.email user) (JWT_SECRET cfg) one_hour ;;
             res_json (JSession token (Col.id user) (Col.email user))
       end)
  catch (fun _ => res_status_json 500 (JError "Login failed")).

(** [POST /api/auth/request-reset] *)
Definition request_reset (email : string) : IO Response :=
  otp <- generateOtp ;;
  try (userCheck <- Db.select_by_email email ;;
       match userCheck with
       | [] => res_status_json 404 (JError "User not found")
       | _ :: _ =>
           _ <- Db.update_reset otp email ;;
           emailSent <- sendOtpEmail email otp ;;
           if negb emailSent then res_status_json 500 (JError "Failed to send OTP email")
           else res_json (JMessage "OTP sent to email")
       end)
  catch (fun _ => res_status_json 500 (JError "Could not send OTP")).

(** [POST /api/auth/verify-reset] *)
Definition verify_reset (email otp newPassword : string) : IO Response :=
  try (result <- Db.select_reset email otp ;;
       match result with
       | [] => res_status_json 400 (JError "Invalid or expired OTP")
       | _ :: _ =>
           hashed <- Bcrypt.hash newPassword SALT_ROUNDS ;;
           _ <- Db.update_password_clear_reset hashed email ;;
           res_json (JMessage "Password reset successful")
       end)
  catch (fun _ => res_status_json 500 (JError "Reset failed")).

(** [POST /api/auth/change-password] *)
Definition change_password (header : Authorization) (oldPassword newPassword : string) : IO Response :=
  verifyToken header (fun req_user =>
    try (result <- Db.select_by_id (p_id req_user) ;;
         stored <- password_of_first result ;;
         matched <- Bcrypt.compare oldPassword stored ;;
         if negb matched then res_status_json 400 (JError "Old password incorrect")
         else
           hashed <- Bcrypt.hash newPassword SALT_ROUNDS ;;
           _ <- Db.update_password hashed (p_id req_user) ;;
           res_json (JMessage "Password changed"))
    catch (fun _ => res_status_json 500 (JError "Change password failed"))).

(** [GET /api/auth/me] *)
Definition me (header : Authorization) : IO Response :=
  verifyToken header (fun req_user =>
    try (result <- Db.select_id_email_by_id (p_id req_user) ;;
         match result with
         | [] => res_status_json 404 (JError "User not found")
         | (i, e) :: _ => res_json (JUser i e)
         end)
    catch (fun _ => res_status_json 500 (JError "Failed to get user profile"))).

End Routes.
End Production.

(** * Variant "Stable Production Version for Render" *)
Module Render.
Section Routes.
Context {ext : Externals}.
Variable cfg : Config.

Definition sendOtpEmail (toEmail otp : string) : IO bool :=
  try (_ <- sendMail (mkMail toEmail otp) ;; ret true)
  catch (fun _ => ret false).

Definition verifyToken (header : Authorization) (next : Payload -> IO Response) : IO Response :=
  match header with
  | NoHeader => res_status_json 401 (JError "No token provided")
  | NotBearer => res_status_json 401 (JError "Malformed token")
  | Bearer token =>
      checked <- (try (payload <- Jwt.verify token (JWT_SECRET cfg) ;; ret (Some payload))
                  catch (fun _ => ret None)) ;;
      match checked with
      | Some payload => next payload
      | None => res_status_json 401 (JError "Invalid token")
      end
  end.

(** [POST /api/auth/signup] *)
Definition signup (email password : string) : IO Response :=
  let errors := validationResult email password in
  if negb (isEmpty errors) then res_status_json 400 (JErrors errors)
  else
    try (exists_ <- Db.select_by_email email ;;
         if (0 <? Z.of_nat (List.length exists_))
         then res_status_json 400 (JError "User already exists")
         else
           hashed <- Bcrypt.hash password SALT_ROUNDS ;;
           _ <- Db.insert email hashed ;;
           res_json (JMessage "Signup successful"))
    catch (fun _ => res_status_json 500 (JError "Signup failed")).

(** [POST /api/auth/login] *)
Definition login (email password : string) : IO Response :=
  try (result <- Db.select_by_email email ;;
       match result with
       | [] => res_status_json 401 (JError "Invalid credentials")
       | user :: _ =>
           matched <- Bcrypt.compare password (Col.password user) ;;
           if negb matched then res_status_json 401 (JError "Invalid credentials")
           else
             token <- Jwt.sign (Col.id user) (Col.email user) (JWT_SECRET cfg) one_hour ;;
             res_json (JSession token (Col.id user) (Col.email user))
       end)
  catch (fun _ => res_status_json 500 (JError "Login failed")).

(** [POST /api/auth/request-reset] *)
Definition request_reset (email : string) : IO Response :=
  otp <- generateOtp ;;
  try (user <- Db.select_by_email email ;;
       match user with
       | [] => res_status_json 404 (JError "User not found")
       | _ :: _ =>
           _ <- Db.update_reset otp email ;;
           sent <- sendOtpEmail email otp ;;
           if negb sent then res_status_json 500 (JError "Email send failed")
           else res_json (JMessage "OTP sent successfully")
       end)
  catch (fun _ => res_status_json 500 (JError "Request failed")).

(** [POST /api/auth/verify-reset] *)
Definition verify_reset (email otp newPassword : string) : IO Response :=
  try (check <- Db.select_reset email otp ;;
       match check with
       | [] => res_status_json 400 (JError "Invalid or expired OTP")
       | _ :: _ =>
           hashed <- Bcrypt.hash newPassword SALT_ROUNDS ;;
           _ <- Db.update_password_clear_reset hashed email ;;
           res_json (JMessage "Password reset successful")
       end)
  catch (fun _ => res_status_json 500 (JError "Reset failed")).

(** [GET /api/auth/me] *)
Definition me (header : Authorization) : IO Response :=
  verifyToken header (fun req_user =>
    try (user <- Db.select_id_email_by_id (p_id req_user) ;;
         match user with
         | [] => res_status_json 404 (JError "User not found")
         | (i, e) :: _ => res_json (JUser i e)
         end)
    catch (fun _ => res_status_json 500 (JError "Profile fetch failed"))).

End Routes.
End Render.

(** * Variant "Node/Express + Postgres auth server"

    Its signup and request-reset routes issue their statement without a
    lookup first.  Its login route reads another table, [users], and is left
    out. *)
Module Legacy.
Section Routes.
Context {ext : Externals}.
Variable cfg : Config.

(** Returns the promise of [sendMail]: a rejected delivery throws. *)
Definition sendOtpEmail (toEmail otp : string) : IO unit :=
  sendMail (mkMail toEmail otp).

Definition verifyToken (header : Authorization) (next : Payload -> IO Response) : IO Response :=
  match header with
  | NoHeader => res_status_json 401 (JError "No token provided")
  | NotBearer => res_status_json 401 (JError "Malformed token")
  | Bearer token =>
      checked <- (try (payload <- Jwt.verify token (JWT_SECRET cfg) ;; ret (Some payload))
                  catch (fun _ => ret None)) ;;
      match checked with
      | Some payload => next payload
      | None => res_status_json 401 (JError "Invalid token")
      end
  end.

(** [POST /api/auth/signup] *)
Definition signup (email password : string) : IO Response :=
  let errors := validationResult email password in
  if negb (isEmpty errors) then res_status_json 400 (JErrors errors)
  else
    try (hashed <- Bcrypt.hash password SALT_ROUNDS ;;
         _ <- Db.insert email hashed ;;
         res_json (JMessage "Signup successful"))
    catch (fun _ => res_status_json 500 (JError "Signup failed")).

(** [POST /api/auth/request-reset] *)
Definition request_reset (email : string) : IO Response :=
  otp <- generateOtp ;;
  try (_ <- Db.update_reset otp email ;;
       _ <- sendOtpEmail email otp ;;
       res_json (JMessage "OTP sent to email"))
  catch (fun _ => res_status_json 500 (JError "Could not send OTP")).

(** [POST /api/auth/verify-reset] *)
Definition verify_reset (email otp newPassword : string) : IO Response :=
  try (result <- Db.select_reset email otp ;;
       match result with
       | [] => res_status_json 400 (JError "Invalid or expired OTP")
       | _ :: _ =>
           hashed <- Bcrypt.hash newPassword SALT_ROUNDS ;;
           _ <- Db.update_password_clear_reset hashed email ;;
           res_json (JMessage "Password reset successful")
       end)
  catch (fun _ => res_status_json 500 (JError "Reset failed")).

(** [POST /api/auth/change-password] *)
Definition change_password (header : Authorization) (oldPassword newPassword : string) : IO Response :=
  verifyToken header (fun req_user =>
    try (result <- Db.select_by_id (p_id req_user) ;;
         stored <- password_of_first result ;;
         matched <- Bcrypt.compare oldPassword stored ;;
         if negb matched then res_status_json 400 (JError "Old password incorrect")
         else
           hashed <- Bcrypt.hash newPassword SALT_ROUNDS ;;
           _ <- Db.update_password hashed (p_id req_user) ;;
           res_json (JMessage "Password changed"))
    catch (fun _ => res_status_json 500 (JError "Change password failed"))).

End Routes.
End Legacy.

(** ** The error kinds of the specification, as the routes answer them *)

Definition VALIDATION_ERROR (errors : list string) : Response := mkResponse 400 (JErrors errors).
Definition DUPLICATE_ACCOUNT : Response := mkResponse 400 (JError "User already exists").
Definition INVALID_CREDENTIALS : Response := mkResponse 401 (JError "Invalid credentials").
Definition NOT_FOUND : Response := mkResponse 404 (JError "User not found").
Definition INVALID_OR_EXPIRED_OTP : Response := mkResponse 400 (JError "Invalid or expired OTP").
Definition INVALID_OLD_PASSWORD : Response := mkResponse 400 (JError "Old password incorrect").

(** [DELIVERY_FAILED] is worded differently by the two variants that have it. *)
Definition DELIVERY_FAILED_production : Response := mkResponse 500 (JError "Failed to send OTP email").
Definition DELIVERY_FAILED_render : Response := mkResponse 500 (JError "Email send failed").

Definition ok (message : string) : Response := mkResponse 200 (JMessage message).

(** The status of the response a route returned, if it returned one. *)
Definition status_of (r : Outcome Response) : option Z :=
  match r with
  | Returned response => Some (status response)
  | Thrown _ => None
  end.

(** ** The router of the Production variant *)

Inductive Request :=
| Signup (email password : string)
| Login (email password : string)
| RequestReset (email : string)
| VerifyReset (email otp newPassword : string)
| ChangePassword (header : Authorization) (oldPassword newPassword : string)
| GetProfile (header : Authorization).

Definition handle {ext : Externals} (cfg : Config) (r : Request) : IO Response :=
  match r with
  | Signup e p => Production.signup e p
  | Login e p => Production.login cfg e p
  | RequestReset e => Production.request_reset cfg e
  | VerifyReset e otp np => Production.verify_reset e otp np
  | ChangePassword h o n => Production.change_password cfg h o n
  | GetProfile h => Production.me cfg h
  end.

(** A session of requests, each with what the environment decided for it. *)
Fixpoint serve {ext : Externals} (cfg : Config) (session : list (Env * Request)) (w : World) : World :=
  match session with
  | [] => w
  | (env, r) :: rest => serve cfg rest (snd (handle cfg r env w))
  end.

(** ** State predicates *)

(** [resetExpiry] is null whenever [resetCode] is null. *)
Definition joint_invariant (t : Table) : Prop :=
  Forall (fun u => Col.reset_otp u = None -> Col.reset_expires u = None) (rows t).

(** [PRIMARY KEY] on [id], [UNIQUE] on [email], ids handed out by the sequence. *)
Definition constraints (t : Table) : Prop :=
  NoDup (map Col.id (rows t)) /\
  NoDup (map Col.email (rows t)) /\
  Forall (fun u => Col.id u <= last_id t) (rows t).

(** The number of accounts registered under an address. *)
Definition accounts (e : string) (w : World) : nat :=
  List.length (Sql.select_by_email e (users1 w)).

(** Two signups for the same address whose lookups are both answered before
    either of them inserts: the schedule a concurrent pair can take at the
    two [await]s of the Production route.  Each request resumes after its
    lookup with the rows it was given. *)
Definition signup_after_lookup {ext : Externals} (email password : string)
    (existingUser : list User) : IO Response :=
  try (if (0 <? Z.of_nat (List.length existingUser))
       then res_status_json 400 (JError "User already exists")
       else
         hashed <- Bcrypt.hash password SALT_ROUNDS ;;
         _ <- Db.insert email hashed ;;
         res_json (JMessage "Signup successful"))
  catch (fun _ => res_status_json 500 (JError "Signup failed")).

Definition signup_race {ext : Externals} (email password1 password2 : string)
    (env1 env2 : Env) (w : World) : Outcome Response * Outcome Response * World :=
  let seen1 := Sql.select_by_email email (users1 w) in
  let seen2 := Sql.select_by_email email (users1 w) in
  let '(r1, w1) := signup_after_lookup email password1 seen1 env1 w in
  let '(r2, w2) := signup_after_lookup email password2 seen2 env2 w1 in
  (r1, r2, w2).

(** A code is pending and unexpired for an address: the lookup of
    [verify-reset] finds a row. *)
Definition pending (email otp : string) (now : Z) (t : Table) : Prop :=
  Sql.select_reset email otp now t <> [].

(** What a reset request for a registered address leaves behind, and what
    it answers, by the fate of the mail. *)
Definition after_request_reset (cfg : Config) (email : string) (env : Env) (w : World) : World :=
  mkWorld (Sql.update_reset (otp_of_draw (random_draw env)) email (NOW env) (users1 w))
          (if transporter cfg
           then mkMail email (otp_of_draw (random_draw env)) :: outbox w
           else outbox w).

(** What a request may write to the table. *)
Inductive writes (t : Table) : Table -> Prop :=
| writes_nothing : writes t t
| writes_insert (e : string) (pw : Digest) : writes t (snd (Sql.insert e pw t))
| writes_reset (otp e : string) (now : Z) : writes t (Sql.update_reset otp e now t)
| writes_clear (pw : Digest) (e : string) : writes t (Sql.update_password_clear_reset pw e t)
| writes_password (pw : Digest) (i : Z) : writes t (Sql.update_password pw i t).

(** ** A concrete choice of the external primitives, to run the routes *)
Module Sample.

Definition contains_at (s : string) : bool :=
  existsb (fun c => Ascii.eqb c "@"%char) (list_ascii_of_string s).

Definition payload_text (p : Payload) : string :=
  p_email p ++ "#" ++ String_of (p_id p) ++ "#" ++ String_of (exp p).

#[export] Instance ext : Externals := {|
  isEmail := contains_at;
  bcrypt_kdf := fun _ salt data => salt ++ "/" ++ data;
  hmac := fun secret p => secret ++ ":" ++ payload_text p
|}.

Definition cfg : Config := mkConfig "4578ppoo9098989988925155222" true.

Definition env (now : Z) (salt : string) (draw : Z) (smtp : bool) : Env :=
  mkEnv (now * 1000000) (now * 1000) draw salt smtp.

End Sample.

(** Sample requests. *)
Module Run.

Definition at_signup : Env := Sample.env 1000 "s1" 0 true.
Definition at_login : Env := Sample.env 1060 "s2" 0 true.
Definition smtp_down : Env := Sample.env 2000 "s3" 23456 false.
Definition in_time : Env := Sample.env 2299 "s4" 0 true.
Definition too_late : Env := Sample.env 2300 "s5" 0 true.

(** The store after [Signup("a@x.com", "secret1")] on the empty store. *)
Definition registered : World :=
  snd (Production.signup (ext := Sample.ext) "a@x.com" "secret1" at_signup empty_world).

(** The account it holds. *)
Definition account : User :=
  mkUser 1 "a@x.com" (mkDigest 10 "s1" "s1/secret1") None None.

(** The token of a login into it. *)
Definition session : Token :=
  Jwt.sign_at (ext := Sample.ext) 1 "a@x.com" (JWT_SECRET Sample.cfg) one_hour (Date_now at_login).

(** The store after a reset request whose mail could not be delivered. *)
Definition reset_requested : World :=
  snd (Production.request_reset Sample.cfg "a@x.com" smtp_down registered).

End Run.

(** ** Predicates for the properties of the routes *)



(** The statuses the routes answer with. *)
Definition known_status (s : Z) : bool :=
  existsb (Z.eqb s) [200; 400; 401; 404; 500].

(** A route has answered, with one of these statuses. *)
Definition answered (o : Outcome Response) : Prop :=
  exists response, o = Returned response /\ known_status (status response) = true.

(** The payload the middleware hands to the route, when it lets the request
    through. *)
Definition bearer_claims {ext : Externals} (cfg : Config) (env : Env)
    (header : Authorization) : option Payload :=
  match header with
  | Bearer token =>
      match Jwt.verify_at token (JWT_SECRET cfg) (Date_now env) with
      | inr payload => Some payload
      | inl _ => None
      end
  | _ => None
  end.

(** The requests that write a reset code or clear one. *)
Definition resets (r : Request) : bool :=
  match r with
  | RequestReset _ | VerifyReset _ _ _ => true
  | _ => false
  end.


(** The ids are 1, 2, ... in the order of the rows, and the sequence stands
    at the last of them. *)
Definition consecutive_ids (t : Table) : Prop :=
  last_id t = Z.of_nat (List.length (rows t)) /\
  map Col.id (rows t) = map Z.of_nat (seq 1 (List.length (rows t))).

(** Further sample requests. *)
Module Case.

Definition after_expiry : Env := Sample.env 4660 "s6" 0 true.

(** The claims of [Run.session]. *)
Definition claims : Payload := mkPayload 1 "a@x.com" 1060 4660.

(** The account of [Run.reset_requested], with its pending code. *)
Definition resetting : User :=
  mkUser 1 "a@x.com" (mkDigest 10 "s1" "s1/secret1") (Some "123456") (Some 2300000000).

End Case.

(** * Properties *)

(** ** The SQL statements *)

Section SqlFacts.

Lemma select_by_email_nil_existsb (e : string) (t : Table) :
  Sql.select_by_email e t = [] -> existsb (Sql.email_is e) (rows t) = false.
Proof.
  unfold Sql.select_by_email. induction (rows t) as [|u l IH]; cbn; auto.
  destruct (Sql.email_is e u); [discriminate | auto].
Qed.

Lemma select_by_email_cons_existsb (e : string) (t : Table) (u : User) (l : list User) :
  Sql.select_by_email e t = u :: l -> existsb (Sql.email_is e) (rows t) = true.
Proof.
  unfold Sql.select_by_email. intros H. apply existsb_exists. exists u.
  assert (Hin : In u (filter (Sql.email_is e) (rows t))) by (rewrite H; now left).
  apply filter_In in Hin. exact Hin.
Qed.

Lemma email_is_refl (e : string) (u : User) : Col.email u = e -> Sql.email_is e u = true.
Proof. intros <-. apply String.eqb_refl. Qed.

Lemma email_is_true (e : string) (u : User) : Sql.email_is e u = true -> Col.email u = e.
Proof. apply String.eqb_eq. Qed.

Lemma id_is_true (i : Z) (u : User) : Sql.id_is i u = true -> Col.id u = i.
Proof. apply Z.eqb_eq. Qed.

(** A selection commutes with an update that leaves the selected column alone. *)
Lemma filter_update (q p : User -> bool) (f : User -> User) (l : list User) :
  (forall u, q (f u) = q u) ->
  filter q (map (fun u => if p u then f u else u) l)
  = map (fun u => if p u then f u else u) (filter q l).
Proof.
  intros Hq. induction l as [|u l IH]; cbn; auto.
  assert (E : q (if p u then f u else u) = q u) by (destruct (p u); auto).
  rewrite E. destruct (q u); cbn; now rewrite IH.
Qed.

(** An update whose condition no row meets changes nothing. *)
Lemma update_where_none (p : User -> bool) (f : User -> User) (t : Table) :
  filter p (rows t) = [] -> Sql.update_where p f t = t.
Proof.
  unfold Sql.update_where. destruct t as [l n]. cbn. intros H. f_equal.
  induction l as [|u l IH]; cbn in *; auto.
  destruct (p u); [discriminate | now rewrite IH].
Qed.

Lemma select_by_email_update_reset (e e' otp : string) (now : Z) (t : Table) :
  Sql.select_by_email e (Sql.update_reset otp e' now t)
  = map (fun u => if Sql.email_is e' u then Sql.set_reset otp (now + minutes 5) u else u)
        (Sql.select_by_email e t).
Proof. unfold Sql.select_by_email, Sql.update_reset, Sql.update_where. cbn. now apply filter_update. Qed.

Lemma select_by_email_update_clear (e e' : string) (pw : Digest) (t : Table) :
  Sql.select_by_email e (Sql.update_password_clear_reset pw e' t)
  = map (fun u => if Sql.email_is e' u then Sql.set_password_clear_reset pw u else u)
        (Sql.select_by_email e t).
Proof.
  unfold Sql.select_by_email, Sql.update_password_clear_reset, Sql.update_where. cbn.
  now apply filter_update.
Qed.

Lemma select_by_email_update_password (e : string) (i : Z) (pw : Digest) (t : Table) :
  Sql.select_by_email e (Sql.update_password pw i t)
  = map (fun u => if Sql.id_is i u then Sql.set_password pw u else u)
        (Sql.select_by_email e t).
Proof.
  unfold Sql.select_by_email, Sql.update_password, Sql.update_where. cbn.
  now apply filter_update.
Qed.

(** On the rows an update selects, it is its assignment. *)
Lemma map_on_selected (p : User -> bool) (f : User -> User) (l : list User) :
  map (fun u => if p u then f u else u) (filter p l) = map f (filter p l).
Proof.
  apply map_ext_in. intros u Hu. apply filter_In in Hu. now rewrite (proj2 Hu).
Qed.

Lemma select_by_id_update_password (i : Z) (pw : Digest) (t : Table) :
  Sql.select_by_id i (Sql.update_password pw i t)
  = map (Sql.set_password pw) (Sql.select_by_id i t).
Proof.
  unfold Sql.select_by_id, Sql.update_password, Sql.update_where. cbn.
  rewrite filter_update by reflexivity. apply map_on_selected.
Qed.

(** After [verify-reset] has cleared the code, no row of the address matches
    any code at any time. *)
Lemma select_reset_after_clear (e otp : string) (pw : Digest) (now : Z) (t : Table) :
  Sql.select_reset e otp now (Sql.update_password_clear_reset pw e t) = [].
Proof.
  unfold Sql.select_reset, Sql.update_password_clear_reset, Sql.update_where. cbn.
  induction (rows t) as [|u l IH]; cbn; auto.
  destruct (Sql.email_is e u) eqn:E; cbn.
  - unfold Sql.email_is in *. cbn. rewrite E. cbn. exact IH.
  - rewrite E. cbn. exact IH.
Qed.

Lemma select_reset_In (e otp : string) (now : Z) (t : Table) (u : User) :
  In u (Sql.select_reset e otp now t) <->
  In u (rows t) /\ Col.email u = e /\ Col.reset_otp u = Some otp /\
  exists expires, Col.reset_expires u = Some expires /\ now < expires.
Proof.
  unfold Sql.select_reset. rewrite filter_In.
  unfold Sql.email_is, Sql.otp_is, Sql.expires_after.
  split.
  - intros [Hin H]. apply andb_true_iff in H as [H H3]. apply andb_true_iff in H as [H1 H2].
    apply String.eqb_eq in H1.
    destruct (Col.reset_otp u) as [c|]; [|discriminate]. apply String.eqb_eq in H2.
    destruct (Col.reset_expires u) as [x|]; [|discriminate]. apply Z.ltb_lt in H3.
    subst. repeat split; auto. now exists x.
  - intros (Hin & H1 & H2 & x & H3 & H4). split; auto.
    rewrite H2, H3. rewrite (proj2 (String.eqb_eq _ _) H1), String.eqb_refl.
    now rewrite (proj2 (Z.ltb_lt _ _) H4).
Qed.

End SqlFacts.

(** ** Running the routes *)

(** Unfolds the monad and the library wrappers, leaving the SQL statements
    and the external primitives folded. *)
Ltac run_io :=
  cbv beta iota delta
    [bind try_catch ret throw ask res_status_json res_json
     Db.on_table Db.select_by_email Db.select_by_id Db.select_id_email_by_id
     Db.select_reset Db.insert Db.update_reset Db.update_password_clear_reset
     Db.update_password Bcrypt.hash Bcrypt.compare Jwt.sign Jwt.verify
     generateOtp sendMail password_of_first isEmpty negb];
  cbn [users1 outbox fst snd].

Section ValidatorFacts.
Context {ext : Externals}.

Lemma validationResult_ok (email password : string) :
  isEmail email = true -> (6 <= String.length password)%nat ->
  validationResult email password = [].
Proof.
  intros He Hp. unfold validationResult. rewrite He.
  now rewrite (proj2 (Z.leb_le 6 (Z.of_nat (String.length password)))) by lia.
Qed.

Lemma validationResult_short (email password : string) :
  (String.length password < 6)%nat ->
  validationResult email password <> [].
Proof.
  intros Hp. unfold validationResult.
  rewrite (proj2 (Z.leb_gt 6 (Z.of_nat (String.length password)))) by lia.
  destruct (isEmail email); discriminate.
Qed.

Lemma compare_digest_own (data salt : string) (rounds : Z) :
  Bcrypt.compare_digest data (Bcrypt.digest data rounds salt) = true.
Proof. unfold Bcrypt.compare_digest, Bcrypt.digest. cbn. apply String.eqb_refl. Qed.

Lemma verify_at_sign_at (i : Z) (e secret : string) (expiresIn issued date_now : Z) :
  Jwt.seconds date_now < Jwt.seconds issued + expiresIn ->
  Jwt.verify_at (Jwt.sign_at i e secret expiresIn issued) secret date_now
  = inr (mkPayload i e (Jwt.seconds issued) (Jwt.seconds issued + expiresIn)).
Proof.
  intros H. unfold Jwt.verify_at, Jwt.sign_at. cbn. rewrite String.eqb_refl. cbn.
  now rewrite (proj2 (Z.leb_gt _ _) H).
Qed.

End ValidatorFacts.

Module ProductionFacts.
Section Runs.
Context {ext : Externals}.
Variable cfg : Config.

Lemma signup_invalid (email password : string) (env : Env) (w : World) :
  validationResult email password <> [] ->
  Production.signup email password env w
  = (Returned (VALIDATION_ERROR (validationResult email password)), w).
Proof.
  intros H. unfold Production.signup.
  destruct (validationResult email password); [contradiction | reflexivity].
Qed.

Lemma signup_registered (email password : string) (env : Env) (w : World) :
  validationResult email password = [] ->
  Sql.select_by_email email (users1 w) <> [] ->
  Production.signup email password env w = (Returned DUPLICATE_ACCOUNT, w).
Proof.
  intros Hv H. unfold Production.signup. rewrite Hv. run_io.
  destruct (Sql.select_by_email email (users1 w)); [contradiction | reflexivity].
Qed.

Lemma signup_fresh (email password : string) (env : Env) (w : World) :
  validationResult email password = [] ->
  Sql.select_by_email email (users1 w) = [] ->
  Production.signup email password env w
  = (Returned (ok "Signup successful"),
     mkWorld
       (mkTable (rows (users1 w) ++
                 [mkUser (last_id (users1 w) + 1) email
                    (Bcrypt.digest password SALT_ROUNDS (gen_salt env)) None None])
                (last_id (users1 w) + 1))
       (outbox w)).
Proof.
  intros Hv H. unfold Production.signup. rewrite Hv. run_io. rewrite H. cbn.
  unfold Sql.insert. now rewrite (select_by_email_nil_existsb _ _ H).
Qed.

Lemma login_unknown (email password : string) (env : Env) (w : World) :
  Sql.select_by_email email (users1 w) = [] ->
  Production.login cfg email password env w = (Returned INVALID_CREDENTIALS, w).
Proof. intros H. unfold Production.login. run_io. now rewrite H. Qed.

Lemma login_mismatch (email password : string) (env : Env) (w : World) (user : User) (rest : list User) :
  Sql.select_by_email email (users1 w) = user :: rest ->
  Bcrypt.compare_digest password (Col.password user) = false ->
  Production.login cfg email password env w = (Returned INVALID_CREDENTIALS, w).
Proof. intros H Hc. unfold Production.login. run_io. now rewrite H, Hc. Qed.

Lemma login_match (email password : string) (env : Env) (w : World) (user : User) (rest : list User) :
  Sql.select_by_email email (users1 w) = user :: rest ->
  Bcrypt.compare_digest password (Col.password user) = true ->
  Production.login cfg email password env w
  = (Returned (mkResponse 200
       (JSession (Jwt.sign_at (Col.id user) (Col.email user) (JWT_SECRET cfg) one_hour (Date_now env))
                 (Col.id user) (Col.email user))), w).
Proof. intros H Hc. unfold Production.login. run_io. now rewrite H, Hc. Qed.

Lemma request_reset_unknown (email : string) (env : Env) (w : World) :
  Sql.select_by_email email (users1 w) = [] ->
  Production.request_reset cfg email env w = (Returned NOT_FOUND, w).
Proof. intros H. unfold Production.request_reset. run_io. now rewrite H. Qed.


Lemma request_reset_known (email : string) (env : Env) (w : World) :
  Sql.select_by_email email (users1 w) <> [] ->
  Production.request_reset cfg email env w
  = (Returned (if transporter cfg && smtp_ok env
               then ok "OTP sent to email"
               else DELIVERY_FAILED_production),
     after_request_reset cfg email env w).
Proof.
  intros H. unfold Production.request_reset, Production.sendOtpEmail, after_request_reset.
  run_io. destruct (Sql.select_by_email email (users1 w)); [contradiction|].
  destruct (transporter cfg); cbn; [|reflexivity].
  run_io. destruct (smtp_ok env); reflexivity.
Qed.

Lemma verify_reset_no_match (email otp newPassword : string) (env : Env) (w : World) :
  Sql.select_reset email otp (NOW env) (users1 w) = [] ->
  Production.verify_reset email otp newPassword env w = (Returned INVALID_OR_EXPIRED_OTP, w).
Proof. intros H. unfold Production.verify_reset. run_io. now rewrite H. Qed.

Lemma verify_reset_match (email otp newPassword : string) (env : Env) (w : World) :
  Sql.select_reset email otp (NOW env) (users1 w) <> [] ->
  Production.verify_reset email otp newPassword env w
  = (Returned (ok "Password reset successful"),
     mkWorld (Sql.update_password_clear_reset
                (Bcrypt.digest newPassword SALT_ROUNDS (gen_salt env)) email (users1 w))
             (outbox w)).
Proof.
  intros H. unfold Production.verify_reset. run_io.
  destruct (Sql.select_reset email otp (NOW env) (users1 w)); [contradiction | reflexivity].
Qed.

Lemma verifyToken_valid (token : Token) (payload : Payload) (next : Payload -> IO Response)
    (env : Env) (w : World) :
  Jwt.verify_at token (JWT_SECRET cfg) (Date_now env) = inr payload ->
  Production.verifyToken cfg (Bearer token) next env w = next payload env w.
Proof. intros H. unfold Production.verifyToken. run_io. now rewrite H. Qed.

Lemma change_password_mismatch (token : Token) (payload : Payload) (oldPassword newPassword : string)
    (env : Env) (w : World) (user : User) (rest : list User) :
  Jwt.verify_at token (JWT_SECRET cfg) (Date_now env) = inr payload ->
  Sql.select_by_id (p_id payload) (users1 w) = user :: rest ->
  Bcrypt.compare_digest oldPassword (Col.password user) = false ->
  Production.change_password cfg (Bearer token) oldPassword newPassword env w
  = (Returned INVALID_OLD_PASSWORD, w).
Proof.
  intros Hv H Hc. unfold Production.change_password. rewrite (verifyToken_valid _ _ _ _ _ Hv).
  run_io. now rewrite H, Hc.
Qed.

Lemma change_password_match (token : Token) (payload : Payload) (oldPassword newPassword : string)
    (env : Env) (w : World) (user : User) (rest : list User) :
  Jwt.verify_at token (JWT_SECRET cfg) (Date_now env) = inr payload ->
  Sql.select_by_id (p_id payload) (users1 w) = user :: rest ->
  Bcrypt.compare_digest oldPassword (Col.password user) = true ->
  Production.change_password cfg (Bearer token) oldPassword newPassword env w
  = (Returned (ok "Password changed"),
     mkWorld (Sql.update_password (Bcrypt.digest newPassword SALT_ROUNDS (gen_salt env))
                (p_id payload) (users1 w))
             (outbox w)).
Proof.
  intros Hv H Hc. unfold Production.change_password. rewrite (verifyToken_valid _ _ _ _ _ Hv).
  run_io. now rewrite H, Hc.
Qed.

End Runs.
End ProductionFacts.

Module RenderFacts.
Section Runs.
Context {ext : Externals}.
Variable cfg : Config.

(** Three routes of the Render variant are those of the Production variant,
    token for token. *)
Lemma render_signup_same : Render.signup = Production.signup.
Proof. reflexivity. Qed.

Lemma render_login_same : Render.login cfg = Production.login cfg.
Proof. reflexivity. Qed.

Lemma render_verify_reset_same : Render.verify_reset = Production.verify_reset.
Proof. reflexivity. Qed.


Lemma render_request_reset_known (email : string) (env : Env) (w : World) :
  Sql.select_by_email email (users1 w) <> [] ->
  Render.request_reset email env w
  = (Returned (if smtp_ok env then ok "OTP sent successfully" else DELIVERY_FAILED_render),
     mkWorld (Sql.update_reset (otp_of_draw (random_draw env)) email (NOW env) (users1 w))
             (mkMail email (otp_of_draw (random_draw env)) :: outbox w)).
Proof.
  intros H. unfold Render.request_reset, Render.sendOtpEmail. run_io.
  destruct (Sql.select_by_email email (users1 w)); [contradiction|].
  destruct (smtp_ok env); reflexivity.
Qed.

End Runs.
End RenderFacts.

Module LegacyFacts.
Section Runs.
Context {ext : Externals}.

(** The insert is rejected by the store and the route answers with its
    catch-all. *)
Lemma legacy_signup_registered (email password : string) (env : Env) (w : World) :
  validationResult email password = [] ->
  Sql.select_by_email email (users1 w) <> [] ->
  Legacy.signup email password env w
  = (Returned (mkResponse 500 (JError "Signup failed")),
     mkWorld (mkTable (rows (users1 w)) (last_id (users1 w) + 1)) (outbox w)).
Proof.
  intros Hv H. unfold Legacy.signup. rewrite Hv. run_io. unfold Sql.insert.
  destruct (Sql.select_by_email email (users1 w)) as [|u l] eqn:E; [contradiction|].
  now rewrite (select_by_email_cons_existsb _ _ _ _ E).
Qed.

Lemma legacy_signup_fresh (email password : string) (env : Env) (w : World) :
  validationResult email password = [] ->
  Sql.select_by_email email (users1 w) = [] ->
  Legacy.signup email password env w
  = (Returned (ok "Signup successful"),
     mkWorld
       (mkTable (rows (users1 w) ++
                 [mkUser (last_id (users1 w) + 1) email
                    (Bcrypt.digest password SALT_ROUNDS (gen_salt env)) None None])
                (last_id (users1 w) + 1))
       (outbox w)).
Proof.
  intros Hv H. unfold Legacy.signup. rewrite Hv. run_io. unfold Sql.insert.
  now rewrite (select_by_email_nil_existsb _ _ H).
Qed.

(** No lookup: the update touches no row, the mail is handed to the
    transport all the same, and the answer follows the delivery alone. *)
Lemma legacy_request_reset_unknown (email : string) (env : Env) (w : World) :
  Sql.select_by_email email (users1 w) = [] ->
  Legacy.request_reset email env w
  = (Returned (if smtp_ok env then ok "OTP sent to email"
               else mkResponse 500 (JError "Could not send OTP")),
     mkWorld (users1 w) (mkMail email (otp_of_draw (random_draw env)) :: outbox w)).
Proof.
  intros H. unfold Legacy.request_reset, Legacy.sendOtpEmail. run_io.
  unfold Sql.update_reset. rewrite update_where_none by exact H.
  destruct (smtp_ok env); reflexivity.
Qed.

End Runs.
End LegacyFacts.


(** ** What a request may write *)

Create HintDb routes.
#[local] Hint Constructors writes : routes.

Section Writes.
Context {ext : Externals}.
Variable cfg : Config.

Lemma verifyToken_writes (header : Authorization) (next : Payload -> IO Response)
    (env : Env) (w : World) :
  (forall payload, writes (users1 w) (users1 (snd (next payload env w)))) ->
  writes (users1 w) (users1 (snd (Production.verifyToken cfg header next env w))).
Proof.
  intros Hnext. unfold Production.verifyToken. destruct header; run_io; auto with routes.
  destruct (Jwt.verify_at token (JWT_SECRET cfg) (Date_now env)); cbn; auto with routes.
Qed.

Lemma insert_writes (e : string) (pw : Digest) (t t' : Table) (r : option Exn) :
  Sql.insert e pw t = (r, t') -> writes t t'.
Proof. intros H. replace t' with (snd (Sql.insert e pw t)) by now rewrite H. constructor. Qed.

Lemma handle_writes (r : Request) (env : Env) (w : World) :
  writes (users1 w) (users1 (snd (handle cfg r env w))).
Proof.
  destruct r; cbn [handle].
  - unfold Production.signup. destruct (validationResult email password); run_io.
    + destruct (0 <? _); cbn; auto with routes.
      destruct (Sql.insert _ _ _) as [[e|] t'] eqn:E; cbn; eauto using insert_writes.
    + auto with routes.
  - unfold Production.login. run_io.
    destruct (Sql.select_by_email _ _); cbn; auto with routes.
    destruct (Bcrypt.compare_digest _ _); cbn; auto with routes.
  - unfold Production.request_reset, Production.sendOtpEmail. run_io.
    destruct (Sql.select_by_email _ _); cbn; auto with routes.
    destruct (transporter cfg); run_io; [destruct (smtp_ok env)|]; cbn; auto with routes.
  - unfold Production.verify_reset. run_io.
    destruct (Sql.select_reset _ _ _ _); cbn; auto with routes.
  - unfold Production.change_password. apply verifyToken_writes. intros payload. run_io.
    destruct (Sql.select_by_id _ _); cbn; auto with routes.
    destruct (Bcrypt.compare_digest _ _); cbn; auto with routes.
  - unfold Production.me. apply verifyToken_writes. intros payload. run_io.
    destruct (map _ _) as [|[i e] l]; cbn; auto with routes.
Qed.

End Writes.

(** ** Invariants of the table *)

Section Invariants.

Lemma Forall_update (P : User -> Prop) (p : User -> bool) (f : User -> User) (l : list User) :
  (forall u, P u -> P (f u)) -> Forall P l ->
  Forall P (map (fun u => if p u then f u else u) l).
Proof.
  intros Hf H. induction H as [|u l Hu Hl IH]; cbn; constructor; auto.
  destruct (p u); auto.
Qed.

Lemma joint_invariant_writes (t t' : Table) :
  writes t t' -> joint_invariant t -> joint_invariant t'.
Proof.
  unfold joint_invariant. intros W H. destruct W; auto.
  - unfold Sql.insert. destruct (existsb _ _); cbn; auto.
    apply Forall_app. split; auto.
  - cbn. apply Forall_update; auto. cbn. discriminate.
  - cbn. apply Forall_update; auto.
  - cbn. apply Forall_update; auto.
Qed.

Lemma map_update_keeps {A : Type} (g : User -> A) (p : User -> bool) (f : User -> User) (l : list User) :
  (forall u, g (f u) = g u) ->
  map g (map (fun u => if p u then f u else u) l) = map g l.
Proof.
  intros Hg. rewrite map_map. apply map_ext. intros u. destruct (p u); auto.
Qed.

Lemma constraints_update (p : User -> bool) (f : User -> User) (t : Table) :
  (forall u, Col.id (f u) = Col.id u) -> (forall u, Col.email (f u) = Col.email u) ->
  constraints t -> constraints (Sql.update_where p f t).
Proof.
  intros Hid Hemail (H1 & H2 & H3). unfold constraints, Sql.update_where. cbn.
  rewrite !map_update_keeps by assumption. repeat split; auto.
  apply Forall_update; auto. intros u. now rewrite Hid.
Qed.

Lemma existsb_email_false (e : string) (l : list User) :
  existsb (Sql.email_is e) l = false -> ~ In e (map Col.email l).
Proof.
  intros H Hin. apply in_map_iff in Hin as (u & Hu & Hin).
  assert (existsb (Sql.email_is e) l = true); [|congruence].
  apply existsb_exists. exists u. split; auto. now apply email_is_refl.
Qed.

Lemma constraints_writes (t t' : Table) :
  writes t t' -> constraints t -> constraints t'.
Proof.
  intros W H. destruct W; auto; try (apply constraints_update; auto).
  destruct H as (H1 & H2 & H3). unfold constraints, Sql.insert.
  destruct (existsb _ _) eqn:E; cbn.
  - repeat split; auto. eapply Forall_impl; [|exact H3]. cbn. intros; lia.
  - rewrite !map_app. cbn. repeat split.
    + apply NoDup_app; [exact H1 | repeat constructor; auto | ].
      intros i Hi [<-|[]]. apply in_map_iff in Hi as (u & Hu & Hin).
      rewrite Forall_forall in H3. specialize (H3 u Hin). lia.
    + apply NoDup_app; [exact H2 | repeat constructor; auto | ].
      intros x Hx [<-|[]]. now apply (existsb_email_false e (rows t)).
    + apply Forall_app. split.
      * eapply Forall_impl; [|exact H3]. cbn. intros; lia.
      * repeat constructor. cbn. lia.
Qed.

Lemma constraints_empty : constraints empty_table.
Proof. repeat split; constructor. Qed.

Lemma filter_nothing (q : User -> bool) (l : list User) :
  (forall v, In v l -> q v = false) -> filter q l = [].
Proof.
  induction l as [|v l IH]; cbn; auto. intros H.
  rewrite (H v) by now left. apply IH. intros x Hx. apply H. now right.
Qed.

(** Under a uniqueness constraint on column [g], the rows that agree with a
    stored row on [g] are that row alone. *)
Lemma filter_unique {A : Type} (g : User -> A) (q : User -> bool) (u : User) (l : list User) :
  (forall v, q v = true <-> g v = g u) ->
  NoDup (map g l) -> In u l -> filter q l = [u].
Proof.
  intros Hq. induction l as [|v l IH]; cbn; [contradiction|].
  intros Hnd Hin. inversion Hnd as [|? ? Hnotin Hnd']; subst.
  destruct Hin as [->|Hin].
  - rewrite (proj2 (Hq u) eq_refl). f_equal.
    apply filter_nothing. intros x Hx.
    destruct (q x) eqn:E; auto.
    exfalso. apply Hnotin. apply Hq in E. rewrite <- E. now apply in_map.
  - destruct (q v) eqn:E.
    + exfalso. apply Hnotin. apply Hq in E. rewrite E. now apply in_map.
    + now apply IH.
Qed.

Lemma select_by_email_unique (t : Table) (u : User) :
  constraints t -> In u (rows t) -> Sql.select_by_email (Col.email u) t = [u].
Proof.
  intros (_ & H & _) Hin. unfold Sql.select_by_email.
  apply filter_unique with (g := Col.email); auto.
  intros v. unfold Sql.email_is. apply String.eqb_eq.
Qed.

Lemma select_by_id_unique (t : Table) (u : User) :
  constraints t -> In u (rows t) -> Sql.select_by_id (Col.id u) t = [u].
Proof.
  intros (H & _ & _) Hin. unfold Sql.select_by_id.
  apply filter_unique with (g := Col.id); auto.
  intros v. unfold Sql.id_is. apply Z.eqb_eq.
Qed.

(** Under the constraints an address has at most one account. *)
Lemma accounts_at_most_one (e : string) (w : World) :
  constraints (users1 w) -> (accounts e w <= 1)%nat.
Proof.
  intros H. unfold accounts.
  destruct (Sql.select_by_email e (users1 w)) as [|u l] eqn:E; cbn; [lia|].
  assert (Hin : In u (Sql.select_by_email e (users1 w))) by (rewrite E; now left).
  apply filter_In in Hin as [Hin Hu]. apply email_is_true in Hu.
  rewrite <- Hu, (select_by_email_unique _ _ H Hin) in E. inversion E. cbn. lia.
Qed.

End Invariants.

(** ** The reset code of an address *)


Section ResetFacts.
Context {ext : Externals}.

(** After a reset request every row of the address carries the issued code
    and an expiry five minutes ahead. *)
Lemma rows_after_update_reset (email otp : string) (now : Z) (t : Table) (u : User) :
  In u (Sql.select_by_email email (Sql.update_reset otp email now t)) ->
  Col.reset_otp u = Some otp /\ Col.reset_expires u = Some (now + minutes 5).
Proof.
  rewrite select_by_email_update_reset. unfold Sql.select_by_email.
  rewrite map_on_selected. intros H. apply in_map_iff in H as (v & <- & _). now cbn.
Qed.

Lemma registered_after_update_reset (email otp : string) (now : Z) (t : Table) :
  Sql.select_by_email email t <> [] ->
  Sql.select_by_email email (Sql.update_reset otp email now t) <> [].
Proof.
  rewrite select_by_email_update_reset. destruct (Sql.select_by_email email t); [contradiction|].
  discriminate.
Qed.

Lemma pending_after_update_reset (email otp : string) (issued now : Z) (t : Table) :
  Sql.select_by_email email t <> [] -> now < issued + minutes 5 ->
  pending email otp now (Sql.update_reset otp email issued t).
Proof.
  intros Hreg Hnow. pose proof (registered_after_update_reset email otp issued t Hreg) as H.
  destruct (Sql.select_by_email email (Sql.update_reset otp email issued t)) as [|u l] eqn:E;
    [contradiction|].
  assert (Hu : In u (Sql.select_by_email email (Sql.update_reset otp email issued t)))
    by (rewrite E; now left).
  destruct (rows_after_update_reset _ _ _ _ _ Hu) as [H1 H2].
  apply filter_In in Hu as [Hin He]. apply email_is_true in He.
  intros Hnil.
  assert (Hsel : In u (Sql.select_reset email otp now (Sql.update_reset otp email issued t))).
  { apply select_reset_In. repeat split; auto. eauto. }
  rewrite Hnil in Hsel. contradiction.
Qed.

Lemma rows_after_clear (email : string) (pw : Digest) (t : Table) (u : User) :
  In u (Sql.select_by_email email (Sql.update_password_clear_reset pw email t)) ->
  Col.password u = pw /\ Col.reset_otp u = None /\ Col.reset_expires u = None.
Proof.
  rewrite select_by_email_update_clear. unfold Sql.select_by_email.
  rewrite map_on_selected. intros H. apply in_map_iff in H as (v & <- & _). now cbn.
Qed.

(** No row of the address has an expiry in the future: nothing matches. *)
Lemma select_reset_expired (email otp : string) (now : Z) (t : Table) :
  (forall u expires, In u (rows t) -> Col.email u = email ->
                     Col.reset_expires u = Some expires -> expires <= now) ->
  Sql.select_reset email otp now t = [].
Proof.
  intros H. destruct (Sql.select_reset email otp now t) as [|u l] eqn:E; auto.
  assert (Hu : In u (Sql.select_reset email otp now t)) by (rewrite E; now left).
  apply select_reset_In in Hu as (Hin & He & _ & x & Hx & Hlt).
  specialize (H u x Hin He Hx). lia.
Qed.

End ResetFacts.

(** * The claims *)

(** C1. For every address that passes the format check and every password of
    at least 6 characters, in a store where the address is not registered,
    Signup succeeds and creates one account for the address; a Login that
    follows with the same address and password succeeds and returns a token
    which the verifier accepts, until its expiry one hour after the login,
    with the id and email of the created account as its claims. *)
Theorem C1_signup_then_login {ext : Externals} (cfg : Config) (env1 env2 : Env) (w : World)
    (email password : string) :
  isEmail email = true ->
  (6 <= String.length password)%nat ->
  Sql.select_by_email email (users1 w) = [] ->
  let w1 := snd (Production.signup email password env1 w) in
  fst (Production.signup email password env1 w) = Returned (ok "Signup successful") /\
  exists account token,
    Sql.select_by_email email (users1 w1) = [account] /\
    Col.email account = email /\
    Production.login cfg email password env2 w1
    = (Returned (mkResponse 200 (JSession token (Col.id account) (Col.email account))), w1) /\
    forall date_now,
      Jwt.seconds date_now < Jwt.seconds (Date_now env2) + one_hour ->
      exists payload,
        Jwt.verify_at token (JWT_SECRET cfg) date_now = inr payload /\
        p_id payload = Col.id account /\ p_email payload = Col.email account.
Proof.
  intros He Hp Hfresh w1. subst w1.
  rewrite (ProductionFacts.signup_fresh _ _ _ _ (validationResult_ok _ _ He Hp) Hfresh).
  cbn [fst snd users1]. split; [reflexivity|].
  set (account := mkUser (last_id (users1 w) + 1) email
                    (Bcrypt.digest password SALT_ROUNDS (gen_salt env1)) None None).
  assert (Hsel : Sql.select_by_email email
                   (mkTable (rows (users1 w) ++ [account]) (last_id (users1 w) + 1)) = [account]).
  { unfold Sql.select_by_email in *. cbn [rows]. rewrite filter_app, Hfresh. cbn.
    unfold Sql.email_is. cbn. now rewrite String.eqb_refl. }
  exists account,
    (Jwt.sign_at (Col.id account) (Col.email account) (JWT_SECRET cfg) one_hour (Date_now env2)).
  split; [exact Hsel|]. split; [reflexivity|]. split.
  - apply ProductionFacts.login_match with (rest := []); [exact Hsel|].
    apply compare_digest_own.
  - intros date_now Hlive. eexists. split; [now apply verify_at_sign_at|]. now cbn.
Qed.

(** C6. A Login that fails, because the address has no account or because the
    password does not verify against the stored hash, answers with the same
    response in both cases: status 401 and the body
    [{ error: 'Invalid credentials' }]; the store is left as it was.  The
    Render route is the same function. *)
Theorem C6_login_failures_alike {ext : Externals} (cfg : Config) (env : Env) (w : World)
    (email password : string) :
  (Sql.select_by_email email (users1 w) = [] \/
   exists user rest,
     Sql.select_by_email email (users1 w) = user :: rest /\
     Bcrypt.compare_digest password (Col.password user) = false) ->
  Production.login cfg email password env w = (Returned INVALID_CREDENTIALS, w) /\
  Render.login cfg email password env w = (Returned INVALID_CREDENTIALS, w).
Proof.
  intros H.
  assert (Hp : Production.login cfg email password env w = (Returned INVALID_CREDENTIALS, w)).
  { destruct H as [H | (user & rest & H & Hc)].
    - now apply ProductionFacts.login_unknown.
    - now apply ProductionFacts.login_mismatch with (user := user) (rest := rest). }
  split; [exact Hp|]. pose proof (RenderFacts.render_login_same cfg) as Hsame.
  now rewrite (f_equal (fun route => route email password env w) Hsame).
Qed.

(** C2. RequestReset followed by VerifyReset with the issued code succeeds
    exactly once.  For every address with a pending unexpired code,
    VerifyReset answers success and its one update stores the hash of the
    new password and sets [reset_otp] and [reset_expires] to NULL on the
    rows of the address; a second VerifyReset with the same code, at any
    time and with any new password, answers [INVALID_OR_EXPIRED_OTP] and
    changes nothing.  The code issued by RequestReset for a registered
    address is pending for the five minutes that follow, in the Production
    and in the Render route, whatever the fate of the mail.  The Render
    verify route is the same function. *)
Theorem C2_reset_code_accepted_once {ext : Externals} (cfg : Config) (env0 env1 env2 : Env)
    (w : World) (email otp newPassword again : string) :
  (pending email otp (NOW env1) (users1 w) ->
   let hashed := Bcrypt.digest newPassword SALT_ROUNDS (gen_salt env1) in
   let w1 := mkWorld (Sql.update_password_clear_reset hashed email (users1 w)) (outbox w) in
   Production.verify_reset email otp newPassword env1 w
   = (Returned (ok "Password reset successful"), w1) /\
   (forall u, In u (Sql.select_by_email email (users1 w1)) ->
              Col.password u = hashed /\ Col.reset_otp u = None /\ Col.reset_expires u = None) /\
   Production.verify_reset email otp again env2 w1 = (Returned INVALID_OR_EXPIRED_OTP, w1)) /\
  (Sql.select_by_email email (users1 w) <> [] ->
   NOW env1 < NOW env0 + minutes 5 ->
   pending email (otp_of_draw (random_draw env0)) (NOW env1)
     (users1 (snd (Production.request_reset cfg email env0 w))) /\
   pending email (otp_of_draw (random_draw env0)) (NOW env1)
     (users1 (snd (Render.request_reset email env0 w)))) /\
  Render.verify_reset = Production.verify_reset.
Proof.
  split; [|split].
  - intros Hp hashed w1. split; [|split].
    + now apply ProductionFacts.verify_reset_match.
    + intros u Hu. now apply (rows_after_clear email hashed (users1 w)).
    + apply ProductionFacts.verify_reset_no_match. apply select_reset_after_clear.
  - intros Hreg Hnow.
    rewrite (ProductionFacts.request_reset_known cfg _ _ _ Hreg).
    rewrite (RenderFacts.render_request_reset_known _ _ _ Hreg). cbn [snd users1].
    split; now apply pending_after_update_reset.
  - reflexivity.
Qed.

(** C5. A VerifyReset submitted when the stored expiry of the address is not
    in the future answers [INVALID_OR_EXPIRED_OTP] and changes nothing, also
    when the submitted code equals the stored one.  VerifyReset answers
    success exactly when a row has the submitted address, a stored code
    equal to the submitted one and an expiry strictly after the time of the
    lookup.  The expiry that RequestReset stores is five minutes after its
    own time, so the code it issued is rejected from then on.  The Render
    verify route is the same function. *)
Theorem C5_expired_code_rejected {ext : Externals} (cfg : Config) (env0 env : Env) (w : World)
    (email otp newPassword : string) :
  ((forall u expires, In u (rows (users1 w)) -> Col.email u = email ->
                      Col.reset_expires u = Some expires -> expires <= NOW env) ->
   Production.verify_reset email otp newPassword env w = (Returned INVALID_OR_EXPIRED_OTP, w)) /\
  (fst (Production.verify_reset email otp newPassword env w)
   = Returned (ok "Password reset successful") <->
   exists u, In u (rows (users1 w)) /\ Col.email u = email /\ Col.reset_otp u = Some otp /\
             exists expires, Col.reset_expires u = Some expires /\ NOW env < expires) /\
  (NOW env0 + minutes 5 <= NOW env ->
   fst (Production.verify_reset email (otp_of_draw (random_draw env0)) newPassword env
          (snd (Production.request_reset cfg email env0 w)))
   = Returned INVALID_OR_EXPIRED_OTP) /\
  Render.verify_reset = Production.verify_reset.
Proof.
  split; [|split; [|split]].
  - intros H. apply ProductionFacts.verify_reset_no_match. now apply select_reset_expired.
  - split.
    + intros H.
      destruct (Sql.select_reset email otp (NOW env) (users1 w)) as [|u l] eqn:E.
      * rewrite (ProductionFacts.verify_reset_no_match _ _ _ _ _ E) in H. discriminate.
      * exists u. apply (select_reset_In email otp (NOW env)). rewrite E. now left.
    + intros (u & Hu). apply (select_reset_In email otp (NOW env)) in Hu.
      rewrite ProductionFacts.verify_reset_match; [reflexivity|].
      intros E. rewrite E in Hu. contradiction.
  - intros Hlate.
    rewrite ProductionFacts.verify_reset_no_match; [reflexivity|].
    apply select_reset_expired. intros u expires Hin He Hx.
    destruct (Sql.select_by_email email (users1 w)) as [|v l] eqn:E.
    + exfalso. rewrite (ProductionFacts.request_reset_unknown cfg _ _ _ E) in Hin.
      cbn [snd] in Hin.
      assert (Hsel : In u (Sql.select_by_email email (users1 w))).
      { apply filter_In. split; auto. now apply email_is_refl. }
      rewrite E in Hsel. contradiction.
    + rewrite ProductionFacts.request_reset_known in Hin by (rewrite E; discriminate).
      cbn [snd users1 after_request_reset] in Hin.
      assert (Hsel : In u (Sql.select_by_email email
                (Sql.update_reset (otp_of_draw (random_draw env0)) email (NOW env0) (users1 w)))).
      { apply filter_In. split; auto. now apply email_is_refl. }
      apply rows_after_update_reset in Hsel as [_ Hexp]. rewrite Hexp in Hx.
      injection Hx as <-. lia.
  - reflexivity.
Qed.

(** C7. For a registered address, when RequestReset has stored the new code
    and the delivery then fails, the route answers [DELIVERY_FAILED] (status
    500), and the rows of the address carry the new code with an expiry five
    minutes ahead: the update is issued before the mail is handed to the
    transport.  A further RequestReset overwrites code and expiry with its
    own.  Both in the Production route (where a missing transporter is a
    failed delivery too) and in the Render route. *)
Theorem C7_delivery_failure_keeps_code (cfg : Config) (env env' : Env) (w : World)
    (email : string) :
  Sql.select_by_email email (users1 w) <> [] ->
  (transporter cfg && smtp_ok env = false ->
   let w1 := snd (Production.request_reset cfg email env w) in
   fst (Production.request_reset cfg email env w) = Returned DELIVERY_FAILED_production /\
   Sql.select_by_email email (users1 w1) <> [] /\
   (forall u, In u (Sql.select_by_email email (users1 w1)) ->
              Col.reset_otp u = Some (otp_of_draw (random_draw env)) /\
              Col.reset_expires u = Some (NOW env + minutes 5)) /\
   (forall u, In u (Sql.select_by_email email
                      (users1 (snd (Production.request_reset cfg email env' w1)))) ->
              Col.reset_otp u = Some (otp_of_draw (random_draw env')) /\
              Col.reset_expires u = Some (NOW env' + minutes 5))) /\
  (smtp_ok env = false ->
   let w1 := snd (Render.request_reset email env w) in
   fst (Render.request_reset email env w) = Returned DELIVERY_FAILED_render /\
   Sql.select_by_email email (users1 w1) <> [] /\
   (forall u, In u (Sql.select_by_email email (users1 w1)) ->
              Col.reset_otp u = Some (otp_of_draw (random_draw env)) /\
              Col.reset_expires u = Some (NOW env + minutes 5)) /\
   (forall u, In u (Sql.select_by_email email
                      (users1 (snd (Render.request_reset email env' w1)))) ->
              Col.reset_otp u = Some (otp_of_draw (random_draw env')) /\
              Col.reset_expires u = Some (NOW env' + minutes 5))).
Proof.
  intros Hreg. split.
  - intros Hfail w1. subst w1.
    rewrite (ProductionFacts.request_reset_known cfg _ _ _ Hreg), Hfail.
    cbn [fst snd users1 after_request_reset].
    pose proof (registered_after_update_reset email (otp_of_draw (random_draw env)) (NOW env)
                  _ Hreg) as Hreg1.
    repeat split; auto; try (now apply rows_after_update_reset in H).
    + rewrite ProductionFacts.request_reset_known in H by exact Hreg1.
      now apply rows_after_update_reset in H.
    + rewrite ProductionFacts.request_reset_known in H by exact Hreg1.
      now apply rows_after_update_reset in H.
  - intros Hfail w1. subst w1.
    rewrite (RenderFacts.render_request_reset_known _ _ _ Hreg), Hfail.
    cbn [fst snd users1].
    pose proof (registered_after_update_reset email (otp_of_draw (random_draw env)) (NOW env)
                  _ Hreg) as Hreg1.
    repeat split; auto; try (now apply rows_after_update_reset in H).
    + rewrite RenderFacts.render_request_reset_known in H by exact Hreg1.
      now apply rows_after_update_reset in H.
    + rewrite RenderFacts.render_request_reset_known in H by exact Hreg1.
      now apply rows_after_update_reset in H.
Qed.

Section SignupFacts.
Context {ext : Externals}.

(** The rows Signup adds have no reset code and no expiry. *)
Lemma signup_created_row (email password : string) (env : Env) (w : World) (u : User) :
  In u (rows (users1 (snd (Production.signup email password env w)))) ->
  In u (rows (users1 w)) \/ (Col.reset_otp u = None /\ Col.reset_expires u = None).
Proof.
  destruct (validationResult email password) as [|x l] eqn:Hv.
  - destruct (Sql.select_by_email email (users1 w)) as [|v l] eqn:E.
    + rewrite (ProductionFacts.signup_fresh _ _ _ _ Hv E). cbn [snd users1 rows].
      intros H. apply in_app_or in H as [H | [<- | []]]; auto.
    + rewrite ProductionFacts.signup_registered; auto. rewrite E. discriminate.
  - rewrite ProductionFacts.signup_invalid; auto. rewrite Hv. discriminate.
Qed.

Lemma serve_invariant (cfg : Config) (P : Table -> Prop) (session : list (Env * Request)) (w : World) :
  (forall t t', writes t t' -> P t -> P t') ->
  P (users1 w) -> P (users1 (serve cfg session w)).
Proof.
  intros HP. revert w. induction session as [|[env r] session IH]; cbn; auto.
  intros w Hw. apply IH. eapply HP; [apply handle_writes | exact Hw].
Qed.

(** The key constraints hold in every store reached from the empty one. *)
Lemma served_constraints (cfg : Config) (session : list (Env * Request)) :
  constraints (users1 (serve cfg session empty_world)).
Proof. apply serve_invariant; [exact constraints_writes | exact constraints_empty]. Qed.

End SignupFacts.

(** C8. Whenever [reset_otp] of an account is NULL its [reset_expires] is
    NULL too: the invariant is kept by every request of the core (Signup,
    Login, RequestReset, VerifyReset, ChangePassword, GetProfile), the rows
    Signup creates have both columns NULL, and so the invariant holds after
    every session of requests served from the empty store. *)
Theorem C8_joint_invariant_kept {ext : Externals} (cfg : Config) (env : Env) (r : Request)
    (w : World) (session : list (Env * Request)) (email password : string) (u : User) :
  (joint_invariant (users1 w) -> joint_invariant (users1 (snd (handle cfg r env w)))) /\
  (In u (rows (users1 (snd (handle cfg (Signup email password) env w)))) ->
   ~ In u (rows (users1 w)) ->
   Col.reset_otp u = None /\ Col.reset_expires u = None) /\
  joint_invariant (users1 (serve cfg session empty_world)).
Proof.
  split; [|split].
  - apply joint_invariant_writes, handle_writes.
  - cbn [handle]. intros Hin Hnew.
    destruct (signup_created_row _ _ _ _ _ Hin) as [H | H]; [contradiction | exact H].
  - apply serve_invariant; [exact joint_invariant_writes | constructor].
Qed.

(** C10. VerifyReset puts no minimum on the length of the new password: for
    every new password shorter than 6 characters, the empty one included,
    which Signup rejects with a validation error, a VerifyReset with a
    pending unexpired code succeeds and stores a hash that this password
    verifies against; so does a ChangePassword with a valid token and the
    right old password. *)
Theorem C10_no_minimum_on_new_password {ext : Externals} (cfg : Config) (env : Env) (w : World)
    (email otp oldPassword newPassword : string) (token : Token) (payload : Payload)
    (user : User) (rest : list User) :
  (String.length newPassword < 6)%nat ->
  (exists errors, errors <> [] /\
     Production.signup email newPassword env w = (Returned (VALIDATION_ERROR errors), w)) /\
  (pending email otp (NOW env) (users1 w) ->
   fst (Production.verify_reset email otp newPassword env w)
   = Returned (ok "Password reset successful") /\
   Sql.select_by_email email
     (users1 (snd (Production.verify_reset email otp newPassword env w))) <> [] /\
   forall u, In u (Sql.select_by_email email
                     (users1 (snd (Production.verify_reset email otp newPassword env w)))) ->
             Bcrypt.compare_digest newPassword (Col.password u) = true) /\
  (Jwt.verify_at token (JWT_SECRET cfg) (Date_now env) = inr payload ->
   Sql.select_by_id (p_id payload) (users1 w) = user :: rest ->
   Bcrypt.compare_digest oldPassword (Col.password user) = true ->
   fst (Production.change_password cfg (Bearer token) oldPassword newPassword env w)
   = Returned (ok "Password changed") /\
   Sql.select_by_id (p_id payload)
     (users1 (snd (Production.change_password cfg (Bearer token) oldPassword newPassword env w)))
   <> [] /\
   forall u, In u (Sql.select_by_id (p_id payload)
                     (users1 (snd (Production.change_password cfg (Bearer token)
                                     oldPassword newPassword env w)))) ->
             Bcrypt.compare_digest newPassword (Col.password u) = true).
Proof.
  intros Hshort. split; [|split].
  - exists (validationResult email newPassword).
    pose proof (validationResult_short email newPassword Hshort) as Hv.
    split; [exact Hv|]. now apply ProductionFacts.signup_invalid.
  - intros Hp. rewrite (ProductionFacts.verify_reset_match _ _ _ _ _ Hp).
    cbn [fst snd users1]. split; [reflexivity|]. split.
    + rewrite select_by_email_update_clear.
      assert (Hreg : Sql.select_by_email email (users1 w) <> []).
      { intros E. apply Hp. unfold Sql.select_reset. unfold Sql.select_by_email in E.
        apply filter_nothing. intros v Hv.
        destruct (Sql.email_is email v) eqn:Ev; [|reflexivity].
        exfalso. assert (Hin : In v (filter (Sql.email_is email) (rows (users1 w))))
          by (apply filter_In; auto).
        rewrite E in Hin. contradiction. }
      destruct (Sql.select_by_email email (users1 w)); [contradiction | discriminate].
    + intros u Hu. apply rows_after_clear in Hu as [-> _]. apply compare_digest_own.
  - intros Hv Hsel Hc.
    rewrite (ProductionFacts.change_password_match cfg _ _ _ _ _ _ _ _ Hv Hsel Hc).
    cbn [fst snd users1]. split; [reflexivity|].
    rewrite select_by_id_update_password, Hsel. split; [discriminate|].
    intros u Hu. apply in_map_iff in Hu as (v & <- & _). cbn. apply compare_digest_own.
Qed.

Section ChangePasswordFacts.
Context {ext : Externals}.

(** A ChangePassword with a valid token of a stored account and the right
    old password replaces the hash of that account, which stays the one
    account of its address. *)
Lemma change_password_replaces_hash (cfg : Config) (env : Env) (w : World)
    (account : User) (token : Token) (payload : Payload) (oldPassword newPassword : string) :
  constraints (users1 w) ->
  In account (rows (users1 w)) ->
  Jwt.verify_at token (JWT_SECRET cfg) (Date_now env) = inr payload ->
  p_id payload = Col.id account ->
  Bcrypt.compare_digest oldPassword (Col.password account) = true ->
  let hashed := Bcrypt.digest newPassword SALT_ROUNDS (gen_salt env) in
  let w1 := mkWorld (Sql.update_password hashed (Col.id account) (users1 w)) (outbox w) in
  Production.change_password cfg (Bearer token) oldPassword newPassword env w
  = (Returned (ok "Password changed"), w1) /\
  Sql.select_by_email (Col.email account) (users1 w1) = [Sql.set_password hashed account].
Proof.
  intros Hc Hin Hv Hid Hold hashed w1.
  pose proof (select_by_id_unique _ _ Hc Hin) as Hbyid. rewrite <- Hid in Hbyid.
  pose proof (select_by_email_unique _ _ Hc Hin) as Hbyemail.
  split.
  - subst w1. rewrite <- Hid.
    now apply ProductionFacts.change_password_match with (payload := payload)
                                                         (user := account) (rest := []).
  - subst w1. cbn [users1]. rewrite select_by_email_update_password, Hbyemail. cbn.
    unfold Sql.id_is. now rewrite Z.eqb_refl.
Qed.

(** A ChangePassword that gives the old password as the new one succeeds, and
    the old password still logs in: whatever the key derivation is. *)
Lemma old_password_survives_same_change (cfg : Config) (env env' : Env) (w : World)
    (account : User) (token : Token) (payload : Payload) (pw : string) :
  constraints (users1 w) ->
  In account (rows (users1 w)) ->
  Jwt.verify_at token (JWT_SECRET cfg) (Date_now env) = inr payload ->
  p_id payload = Col.id account ->
  Bcrypt.compare_digest pw (Col.password account) = true ->
  fst (Production.change_password cfg (Bearer token) pw pw env w)
  = Returned (ok "Password changed") /\
  status_of (fst (Production.login cfg (Col.email account) pw env'
                    (snd (Production.change_password cfg (Bearer token) pw pw env w))))
  = Some 200.
Proof.
  intros Hc Hin Hv Hid Hold.
  destruct (change_password_replaces_hash cfg env w account token payload pw pw
              Hc Hin Hv Hid Hold) as (H1 & H2).
  rewrite H1. cbn [fst snd]. split; [reflexivity|].
  rewrite (ProductionFacts.login_match cfg _ _ _ _ _ [] H2); [reflexivity|].
  cbn. apply compare_digest_own.
Qed.

End ChangePasswordFacts.

(** C9 (as the code has it).  For an account of a store that satisfies its
    key constraints and a valid session token of that account: a
    ChangePassword whose old password verifies against the stored hash
    succeeds and replaces the hash by one of the new password, after which
    a Login with the new password succeeds, and a Login with the old
    password answers [INVALID_CREDENTIALS] provided the old password does
    not verify against the new hash (the route does not ask the two
    passwords to differ); a ChangePassword whose old password does not
    verify answers [INVALID_OLD_PASSWORD] and leaves the store, and so the
    hash, as it was. *)
Theorem C9_change_password {ext : Externals} (cfg : Config) (env env' : Env) (w : World)
    (account : User) (token : Token) (payload : Payload) (oldPassword newPassword : string) :
  constraints (users1 w) ->
  In account (rows (users1 w)) ->
  Jwt.verify_at token (JWT_SECRET cfg) (Date_now env) = inr payload ->
  p_id payload = Col.id account ->
  (Bcrypt.compare_digest oldPassword (Col.password account) = true ->
   let hashed := Bcrypt.digest newPassword SALT_ROUNDS (gen_salt env) in
   let w1 := mkWorld (Sql.update_password hashed (Col.id account) (users1 w)) (outbox w) in
   Production.change_password cfg (Bearer token) oldPassword newPassword env w
   = (Returned (ok "Password changed"), w1) /\
   Sql.select_by_email (Col.email account) (users1 w1) = [Sql.set_password hashed account] /\
   Production.login cfg (Col.email account) newPassword env' w1
   = (Returned (mkResponse 200
        (JSession (Jwt.sign_at (Col.id account) (Col.email account) (JWT_SECRET cfg) one_hour
                     (Date_now env'))
                  (Col.id account) (Col.email account))), w1) /\
   (Bcrypt.compare_digest oldPassword hashed = false ->
    Production.login cfg (Col.email account) oldPassword env' w1
    = (Returned INVALID_CREDENTIALS, w1))) /\
  (Bcrypt.compare_digest oldPassword (Col.password account) = false ->
   Production.change_password cfg (Bearer token) oldPassword newPassword env w
   = (Returned INVALID_OLD_PASSWORD, w)).
Proof.
  intros Hc Hin Hv Hid. split.
  - intros Hold hashed w1.
    destruct (change_password_replaces_hash cfg env w account token payload
                oldPassword newPassword Hc Hin Hv Hid Hold) as (H1 & Hsel).
    fold hashed in H1, Hsel. fold w1 in H1, Hsel.
    split; [exact H1|]. split; [exact Hsel|]. split.
    + apply (ProductionFacts.login_match cfg _ _ _ _ _ [] Hsel). cbn.
      apply compare_digest_own.
    + intros Hdiff. now apply (ProductionFacts.login_mismatch cfg _ _ _ _ _ [] Hsel).
  - intros Hold.
    pose proof (select_by_id_unique _ _ Hc Hin) as Hbyid. rewrite <- Hid in Hbyid.
    now apply ProductionFacts.change_password_mismatch with (payload := payload)
                                                            (user := account) (rest := []).
Qed.

(** ** Duplicate signups *)

Section DuplicateSignup.
Context {ext : Externals}.

Lemma select_by_email_after_insert (email : string) (pw : Digest) (t : Table) :
  Sql.select_by_email email t = [] ->
  Sql.select_by_email email
    (mkTable (rows t ++ [mkUser (last_id t + 1) email pw None None]) (last_id t + 1))
  = [mkUser (last_id t + 1) email pw None None].
Proof.
  intros H. unfold Sql.select_by_email in *. cbn [rows]. rewrite filter_app, H. cbn.
  unfold Sql.email_is. cbn. now rewrite String.eqb_refl.
Qed.

(** The Production route is its lookup followed by [signup_after_lookup]. *)
Lemma signup_resumes (email password : string) (env : Env) (w : World) :
  validationResult email password = [] ->
  Production.signup email password env w
  = signup_after_lookup email password (Sql.select_by_email email (users1 w)) env w.
Proof. intros Hv. unfold Production.signup, signup_after_lookup. now rewrite Hv. Qed.

(** Production, one after the other: the second signup is told that the user
    exists, and one account is there. *)
Lemma production_second_signup (email password1 password2 : string) (env1 env2 : Env) (w : World) :
  validationResult email password1 = [] ->
  validationResult email password2 = [] ->
  Sql.select_by_email email (users1 w) = [] ->
  let w1 := snd (Production.signup email password1 env1 w) in
  Production.signup email password2 env2 w1 = (Returned DUPLICATE_ACCOUNT, w1) /\
  accounts email w1 = 1%nat.
Proof.
  intros Hv1 Hv2 Hfresh w1. subst w1.
  rewrite (ProductionFacts.signup_fresh _ _ _ _ Hv1 Hfresh). cbn [snd].
  pose proof (select_by_email_after_insert email
                (Bcrypt.digest password1 SALT_ROUNDS (gen_salt env1)) _ Hfresh) as Hsel.
  split.
  - apply ProductionFacts.signup_registered; auto. cbn [users1]. rewrite Hsel. discriminate.
  - unfold accounts. cbn [users1]. now rewrite Hsel.
Qed.

(** Production, both lookups answered before either insert: the store turns
    the second insert down, that request gets the catch-all answer of the
    route, and one account is there. *)
Lemma production_signup_race (email password1 password2 : string) (env1 env2 : Env) (w : World) :
  Sql.select_by_email email (users1 w) = [] ->
  exists w2,
    signup_race email password1 password2 env1 env2 w
    = (Returned (ok "Signup successful"), Returned (mkResponse 500 (JError "Signup failed")), w2) /\
    accounts email w2 = 1%nat.
Proof.
  intros Hfresh. unfold signup_race, signup_after_lookup. rewrite Hfresh. run_io. cbn.
  unfold Sql.insert at 1. rewrite (select_by_email_nil_existsb _ _ Hfresh). cbn.
  pose proof (select_by_email_after_insert email
                (Bcrypt.digest password1 SALT_ROUNDS (gen_salt env1)) _ Hfresh) as Hsel.
  unfold Sql.insert. rewrite (select_by_email_cons_existsb _ _ _ _ Hsel). cbn.
  eexists. split; [reflexivity|]. unfold accounts. cbn [users1].
  unfold Sql.select_by_email in *. cbn [rows] in *. now rewrite Hsel.
Qed.

(** Legacy, one after the other: the store turns the second insert down and
    the route answers with its catch-all, status 500; one account is there. *)
Lemma legacy_second_signup (email password1 password2 : string) (env1 env2 : Env) (w : World) :
  validationResult email password1 = [] ->
  validationResult email password2 = [] ->
  Sql.select_by_email email (users1 w) = [] ->
  let w1 := snd (Legacy.signup email password1 env1 w) in
  fst (Legacy.signup email password2 env2 w1) = Returned (mkResponse 500 (JError "Signup failed")) /\
  accounts email (snd (Legacy.signup email password2 env2 w1)) = 1%nat.
Proof.
  intros Hv1 Hv2 Hfresh w1. subst w1.
  rewrite (LegacyFacts.legacy_signup_fresh _ _ _ _ Hv1 Hfresh). cbn [snd].
  pose proof (select_by_email_after_insert email
                (Bcrypt.digest password1 SALT_ROUNDS (gen_salt env1)) _ Hfresh) as Hsel.
  rewrite LegacyFacts.legacy_signup_registered; auto.
  - cbn [fst snd users1 rows]. split; [reflexivity|]. unfold accounts. cbn [users1].
    unfold Sql.select_by_email in *. cbn [rows] in *. now rewrite Hsel.
  - cbn [users1]. rewrite Hsel. discriminate.
Qed.

End DuplicateSignup.

(** * Further properties of the routes *)

(** ** The reset code generator *)

Section OtpFacts.









End OtpFacts.



(** ** What every request gets and leaves *)

Section Answers.
Context {ext : Externals}.
Variable cfg : Config.

Lemma verifyToken_cases (header : Authorization) (next : Payload -> IO Response)
    (env : Env) (w : World) :
  Production.verifyToken cfg header next env w
  = match bearer_claims cfg env header with
    | Some payload => next payload env w
    | None =>
        (Returned (mkResponse 401
           (JError match header with
                   | NoHeader => "No token provided"
                   | NotBearer => "Malformed token"
                   | Bearer _ => "Invalid token"
                   end)), w)
    end.
Proof.
  destruct header; try reflexivity.
  unfold Production.verifyToken, bearer_claims. run_io.
  destruct (Jwt.verify_at token (JWT_SECRET cfg) (Date_now env)); reflexivity.
Qed.

(** The lookup of the signup route guards its insert. *)
Lemma insert_after_lookup (email : string) (pw : Digest) (t : Table) :
  Sql.select_by_email email t = [] -> fst (Sql.insert email pw t) = None.
Proof.
  intros H. unfold Sql.insert. now rewrite (select_by_email_nil_existsb _ _ H).
Qed.

End Answers.

(** X3. Every request to the Production routes is answered: no exception
    leaves a route, and the status of the answer is one of 200, 400, 401,
    404 and 500. *)
Theorem every_request_answered {ext : Externals} (cfg : Config) (r : Request) (env : Env)
    (w : World) :
  answered (fst (handle cfg r env w)).
Proof.
  unfold answered. destruct r; cbn [handle].
  - unfold Production.signup. destruct (validationResult email password); run_io.
    + destruct (0 <? _); cbn; eauto.
      destruct (Sql.insert _ _ _) as [[e|] t']; cbn; eauto.
    + eauto.
  - unfold Production.login. run_io.
    destruct (Sql.select_by_email _ _); cbn; eauto.
    destruct (Bcrypt.compare_digest _ _); cbn; eauto.
  - unfold Production.request_reset, Production.sendOtpEmail. run_io.
    destruct (Sql.select_by_email _ _); cbn; eauto.
    destruct (transporter cfg); run_io; [destruct (smtp_ok env)|]; cbn; eauto.
  - unfold Production.verify_reset. run_io.
    destruct (Sql.select_reset _ _ _ _); cbn; eauto.
  - unfold Production.change_password. rewrite verifyToken_cases.
    destruct (bearer_claims cfg env header); [|cbn; eauto]. run_io.
    destruct (Sql.select_by_id _ _); cbn; eauto.
    destruct (Bcrypt.compare_digest _ _); cbn; eauto.
  - unfold Production.me. rewrite verifyToken_cases.
    destruct (bearer_claims cfg env header); [|cbn; eauto]. run_io.
    destruct (map _ _) as [|[i e] l]; cbn; eauto.
Qed.

(** X4. A request to the Production routes that is not answered with 200
    leaves the store and the outbox as they were, with one exception: a
    reset request whose mail could not be delivered, which has stored its
    code by then. *)
Theorem failed_request_writes_nothing {ext : Externals} (cfg : Config) (r : Request) (env : Env)
    (w : World) (response : Response) :
  fst (handle cfg r env w) = Returned response ->
  status response <> 200 ->
  snd (handle cfg r env w) = w \/
  exists email, r = RequestReset email /\ response = DELIVERY_FAILED_production.
Proof.
  destruct r; cbn [handle].
  - unfold Production.signup. destruct (validationResult email password); run_io.
    + destruct (Sql.select_by_email email (users1 w)) as [|u l] eqn:E; cbn.
      * pose proof (insert_after_lookup email
                      (Bcrypt.digest password SALT_ROUNDS (gen_salt env)) _ E) as Hi.
        destruct (Sql.insert _ _ _) as [[e|] t']; cbn in *; [discriminate|].
        intros [= <-]. cbn. intros H. now contradiction H.
      * auto.
    + auto.
  - unfold Production.login. run_io.
    destruct (Sql.select_by_email _ _); cbn; auto.
    destruct (Bcrypt.compare_digest _ _); cbn; auto.
  - unfold Production.request_reset, Production.sendOtpEmail. run_io.
    destruct (Sql.select_by_email _ _); cbn; auto.
    destruct (transporter cfg); run_io; [destruct (smtp_ok env)|]; cbn.
    + intros [= <-]. cbn. intros H. now contradiction H.
    + intros [= <-] _. right. eauto.
    + intros [= <-] _. right. eauto.
  - unfold Production.verify_reset. run_io.
    destruct (Sql.select_reset _ _ _ _); cbn; auto.
    intros [= <-]. cbn. intros H. now contradiction H.
  - unfold Production.change_password. rewrite verifyToken_cases.
    destruct (bearer_claims cfg env header); [|cbn; auto]. run_io.
    destruct (Sql.select_by_id _ _); cbn; auto.
    destruct (Bcrypt.compare_digest _ _); cbn; auto.
    intros [= <-]. cbn. intros H. now contradiction H.
  - unfold Production.me. rewrite verifyToken_cases.
    destruct (bearer_claims cfg env header); [|cbn; auto]. run_io.
    destruct (map _ _) as [|[i e] l]; cbn; auto.
Qed.

(** X5. A request to a protected route whose [Authorization] header is
    missing, is not a bearer header, or carries a token that does not verify
    (wrong signature, or expiry reached) is answered with 401 and changes
    nothing: in the change-password and profile routes of the Production
    variant, the profile route of the Render variant and the change-password
    route of the Legacy variant. *)
Theorem unauthenticated_request_rejected {ext : Externals} (cfg : Config)
    (header : Authorization) (oldPassword newPassword : string) (env : Env) (w : World) :
  bearer_claims cfg env header = None ->
  (status_of (fst (Production.change_password cfg header oldPassword newPassword env w))
   = Some 401 /\
   snd (Production.change_password cfg header oldPassword newPassword env w) = w) /\
  (status_of (fst (Production.me cfg header env w)) = Some 401 /\
   snd (Production.me cfg header env w) = w) /\
  (status_of (fst (Render.me cfg header env w)) = Some 401 /\
   snd (Render.me cfg header env w) = w) /\
  (status_of (fst (Legacy.change_password cfg header oldPassword newPassword env w))
   = Some 401 /\
   snd (Legacy.change_password cfg header oldPassword newPassword env w) = w).
Proof.
  intros H.
  assert (Hmw : forall next,
             status_of (fst (Production.verifyToken cfg header next env w)) = Some 401 /\
             snd (Production.verifyToken cfg header next env w) = w).
  { intros next. rewrite verifyToken_cases, H. now cbn. }
  repeat split; apply Hmw.
Qed.

(** ** Sessions *)

Section SessionFacts.
Context {ext : Externals}.
Variable cfg : Config.

Lemma me_with_claims (header : Authorization) (payload : Payload) (env : Env) (w : World) :
  bearer_claims cfg env header = Some payload ->
  Production.me cfg header env w
  = (Returned match Sql.select_by_id (p_id payload) (users1 w) with
              | [] => NOT_FOUND
              | user :: _ => mkResponse 200 (JUser (Col.id user) (Col.email user))
              end, w).
Proof.
  intros H. unfold Production.me. rewrite verifyToken_cases, H. run_io.
  destruct (Sql.select_by_id (p_id payload) (users1 w)); reflexivity.
Qed.

Lemma bearer_claims_of_login (i : Z) (e : string) (issued env : Env) :
  bearer_claims cfg env (Bearer (Jwt.sign_at i e (JWT_SECRET cfg) one_hour (Date_now issued)))
  = if Jwt.seconds (Date_now issued) + one_hour <=? Jwt.seconds (Date_now env)
    then None
    else Some (mkPayload i e (Jwt.seconds (Date_now issued))
                 (Jwt.seconds (Date_now issued) + one_hour)).
Proof.
  unfold bearer_claims, Jwt.verify_at, Jwt.sign_at. cbn. rewrite String.eqb_refl. cbn.
  destruct (_ <=? _); reflexivity.
Qed.

End SessionFacts.

(** X6. The token of a successful Login opens the profile route for one
    hour: before the expiry [GET /api/auth/me] with that token answers 200
    with the id and email of the account that logged in; from the expiry on
    it answers 401 [{ error: 'Invalid token' }].  Neither request changes
    anything. *)
Theorem login_then_profile {ext : Externals} (cfg : Config) (env env' : Env) (w : World)
    (account : User) (password : string) :
  constraints (users1 w) ->
  In account (rows (users1 w)) ->
  Bcrypt.compare_digest password (Col.password account) = true ->
  exists token,
    Production.login cfg (Col.email account) password env w
    = (Returned (mkResponse 200 (JSession token (Col.id account) (Col.email account))), w) /\
    (Jwt.seconds (Date_now env') < Jwt.seconds (Date_now env) + one_hour ->
     Production.me cfg (Bearer token) env' w
     = (Returned (mkResponse 200 (JUser (Col.id account) (Col.email account))), w)) /\
    (Jwt.seconds (Date_now env) + one_hour <= Jwt.seconds (Date_now env') ->
     Production.me cfg (Bearer token) env' w
     = (Returned (mkResponse 401 (JError "Invalid token")), w)).
Proof.
  intros Hc Hin Hpw.
  exists (Jwt.sign_at (Col.id account) (Col.email account) (JWT_SECRET cfg) one_hour (Date_now env)).
  split; [|split].
  - apply ProductionFacts.login_match with (rest := []); [|exact Hpw].
    now apply select_by_email_unique.
  - intros Hlive. erewrite me_with_claims.
    2:{ rewrite bearer_claims_of_login.
        now rewrite (proj2 (Z.leb_gt _ _) Hlive). }
    cbn [p_id]. now rewrite (select_by_id_unique _ _ Hc Hin).
  - intros Hdead. unfold Production.me. rewrite verifyToken_cases, bearer_claims_of_login.
    now rewrite (proj2 (Z.leb_le _ _) Hdead).
Qed.


(** X8. Login and the profile route only read: whatever the request and its
    answer, the store and the outbox are left as they were. *)
Theorem login_and_profile_read_only {ext : Externals} (cfg : Config) (email password : string)
    (header : Authorization) (env : Env) (w : World) :
  snd (Production.login cfg email password env w) = w /\
  snd (Production.me cfg header env w) = w /\
  snd (Render.me cfg header env w) = w.
Proof.
  split; [|split].
  - unfold Production.login. run_io.
    destruct (Sql.select_by_email _ _); cbn; auto.
    destruct (Bcrypt.compare_digest _ _); cbn; auto.
  - unfold Production.me. rewrite verifyToken_cases.
    destruct (bearer_claims cfg env header); [|reflexivity]. run_io.
    destruct (map _ _) as [|[i e] l]; reflexivity.
  - unfold Render.me.
    change (Render.verifyToken cfg) with (Production.verifyToken cfg).
    rewrite verifyToken_cases.
    destruct (bearer_claims cfg env header); [|reflexivity]. run_io.
    destruct (map _ _) as [|[i e] l]; reflexivity.
Qed.

(** X9. A ChangePassword with a token that verifies but whose id has no
    account (the account is gone since the login) reads the password of a
    row that is not there: the route answers 500
    [{ error: 'Change password failed' }] and changes nothing, in the
    Production and in the Legacy variant. *)
Theorem change_password_without_account {ext : Externals} (cfg : Config)
    (header : Authorization) (payload : Payload) (oldPassword newPassword : string)
    (env : Env) (w : World) :
  bearer_claims cfg env header = Some payload ->
  Sql.select_by_id (p_id payload) (users1 w) = [] ->
  Production.change_password cfg header oldPassword newPassword env w
  = (Returned (mkResponse 500 (JError "Change password failed")), w) /\
  Legacy.change_password cfg header oldPassword newPassword env w
  = (Returned (mkResponse 500 (JError "Change password failed")), w).
Proof.
  intros H Hnone.
  assert (Hp : Production.change_password cfg header oldPassword newPassword env w
               = (Returned (mkResponse 500 (JError "Change password failed")), w)).
  { unfold Production.change_password. rewrite verifyToken_cases, H. run_io.
    now rewrite Hnone. }
  split; [exact Hp | exact Hp].
Qed.

(** ** The store across requests *)

Section StoreFacts.


(** An update leaves the rows it does not select as they are. *)
Lemma filter_others_update (p : User -> bool) (f : User -> User) (l : list User) :
  (forall u, p (f u) = p u) ->
  filter (fun u => negb (p u)) (map (fun u => if p u then f u else u) l)
  = filter (fun u => negb (p u)) l.
Proof.
  intros Hp. induction l as [|u l IH]; cbn; auto.
  destruct (p u) eqn:E; cbn.
  - rewrite Hp, E. cbn. exact IH.
  - rewrite E. cbn. now rewrite IH.
Qed.

(** An update that leaves the reset columns alone keeps a pending code. *)
Lemma pending_update_password (email otp : string) (now : Z) (pw : Digest) (i : Z) (t : Table) :
  pending email otp now t -> pending email otp now (Sql.update_password pw i t).
Proof.
  unfold pending, Sql.select_reset, Sql.update_password, Sql.update_where. cbn.
  rewrite filter_update by reflexivity.
  destruct (filter _ (rows t)); [contradiction | discriminate].
Qed.

Lemma pending_insert (email otp e : string) (now : Z) (pw : Digest) (t : Table) :
  pending email otp now t -> pending email otp now (snd (Sql.insert e pw t)).
Proof.
  unfold pending, Sql.select_reset, Sql.insert. destruct (existsb _ _); cbn; auto.
  rewrite filter_app. destruct (filter _ (rows t)); [contradiction | discriminate].
Qed.

End StoreFacts.

(** X10. The key constraints of [users1] are kept by every request to the
    Production routes, and hold after every session served from the empty
    store: ids are unique and at most the last value of the sequence,
    addresses are unique, and so an address never has more than one
    account. *)
Theorem constraints_kept {ext : Externals} (cfg : Config) (env : Env) (r : Request) (w : World)
    (session : list (Env * Request)) (email : string) :
  (constraints (users1 w) -> constraints (users1 (snd (handle cfg r env w)))) /\
  constraints (users1 (serve cfg session empty_world)) /\
  (accounts email (serve cfg session empty_world) <= 1)%nat.
Proof.
  split; [|split].
  - apply constraints_writes, handle_writes.
  - apply served_constraints.
  - apply accounts_at_most_one, served_constraints.
Qed.

(** X11. Two signups for one fresh address whose lookups are both answered
    before either inserts: both pass the lookup, the first insert succeeds,
    the second is turned down by the store, and that request is answered
    with the catch-all 500 [{ error: 'Signup failed' }], where the same two
    requests one after the other give 400 [{ error: 'User already exists'
    }].  In both orders one account exists afterwards. *)
Theorem concurrent_signups {ext : Externals} (email password1 password2 : string)
    (env1 env2 : Env) (w : World) :
  validationResult email password1 = [] ->
  validationResult email password2 = [] ->
  Sql.select_by_email email (users1 w) = [] ->
  (exists w2,
     signup_race email password1 password2 env1 env2 w
     = (Returned (ok "Signup successful"),
        Returned (mkResponse 500 (JError "Signup failed")), w2) /\
     accounts email w2 = 1%nat) /\
  (let w1 := snd (Production.signup email password1 env1 w) in
   Production.signup email password1 env1 w
   = signup_after_lookup email password1 (Sql.select_by_email email (users1 w)) env1 w /\
   Production.signup email password2 env2 w1 = (Returned DUPLICATE_ACCOUNT, w1) /\
   accounts email w1 = 1%nat).
Proof.
  intros Hv1 Hv2 Hfresh. split.
  - now apply production_signup_race.
  - intros w1. split; [now apply signup_resumes|].
    now apply production_second_signup.
Qed.


(** X13. The reset routes write to the rows of the address they are given
    and to no other: every account of another address is, after
    RequestReset or VerifyReset, exactly as before.  ChangePassword likewise
    leaves every account with another id than the token's as it was. *)
Theorem other_accounts_untouched {ext : Externals} (cfg : Config) (email otp newPassword : string)
    (header : Authorization) (payload : Payload) (oldPassword : string) (env : Env) (w : World) :
  filter (fun u => negb (Sql.email_is email u))
    (rows (users1 (snd (Production.request_reset cfg email env w))))
  = filter (fun u => negb (Sql.email_is email u)) (rows (users1 w)) /\
  filter (fun u => negb (Sql.email_is email u))
    (rows (users1 (snd (Production.verify_reset email otp newPassword env w))))
  = filter (fun u => negb (Sql.email_is email u)) (rows (users1 w)) /\
  (bearer_claims cfg env header = Some payload ->
   filter (fun u => negb (Sql.id_is (p_id payload) u))
     (rows (users1 (snd (Production.change_password cfg header oldPassword newPassword env w))))
   = filter (fun u => negb (Sql.id_is (p_id payload) u)) (rows (users1 w))).
Proof.
  split; [|split].
  - destruct (Sql.select_by_email email (users1 w)) as [|u l] eqn:E.
    + now rewrite ProductionFacts.request_reset_unknown.
    + rewrite ProductionFacts.request_reset_known by (rewrite E; discriminate).
      cbn [snd users1 after_request_reset]. now apply filter_others_update.
  - destruct (Sql.select_reset email otp (NOW env) (users1 w)) as [|u l] eqn:E.
    + now rewrite ProductionFacts.verify_reset_no_match.
    + rewrite ProductionFacts.verify_reset_match by (unfold pending; rewrite E; discriminate).
      cbn [snd users1]. now apply filter_others_update.
  - intros H. unfold Production.change_password. rewrite verifyToken_cases, H. run_io.
    destruct (Sql.select_by_id _ _); cbn; auto.
    destruct (Bcrypt.compare_digest _ _); cbn; auto.
    now apply filter_others_update.
Qed.

(** X14. A pending reset code outlives every request that is not a reset
    request: a Signup, a Login, a profile request and, notably, a
    ChangePassword leave it pending, so the code still resets the password
    after the password was changed. *)
Theorem pending_code_outlives {ext : Externals} (cfg : Config) (r : Request) (env : Env)
    (w : World) (email otp : string) (now : Z) :
  resets r = false ->
  pending email otp now (users1 w) ->
  pending email otp now (users1 (snd (handle cfg r env w))).
Proof.
  intros Hr Hp. destruct r; try discriminate; cbn [handle].
  - unfold Production.signup. destruct (validationResult email0 password); run_io; auto.
    destruct (0 <? _); cbn; auto.
    pose proof (pending_insert email otp email0 now
                  (Bcrypt.digest password SALT_ROUNDS (gen_salt env)) _ Hp) as Hi.
    destruct (Sql.insert _ _ _) as [[e|] t']; cbn in *; auto.
  - unfold Production.login. run_io.
    destruct (Sql.select_by_email _ _); cbn; auto.
    destruct (Bcrypt.compare_digest _ _); cbn; auto.
  - unfold Production.change_password. rewrite verifyToken_cases.
    destruct (bearer_claims cfg env header); [|cbn; auto]. run_io.
    destruct (Sql.select_by_id _ _); cbn; auto.
    destruct (Bcrypt.compare_digest _ _); cbn; auto.
    now apply pending_update_password.
  - unfold Production.me. rewrite verifyToken_cases.
    destruct (bearer_claims cfg env header); [|cbn; auto]. run_io.
    destruct (map _ _) as [|[i e] l]; cbn; auto.
Qed.

(** X15. The Render and the Legacy variant answer every request too: the
    routes they do not share with the Production variant (reset request and
    profile in Render, signup and reset request in Legacy) let no exception
    out, a rejected insert and a rejected delivery included. *)
Theorem other_variants_answer {ext : Externals} (cfg : Config) (email password : string)
    (header : Authorization) (env : Env) (w : World) :
  answered (fst (Render.request_reset email env w)) /\
  answered (fst (Render.me cfg header env w)) /\
  answered (fst (Legacy.signup email password env w)) /\
  answered (fst (Legacy.request_reset email env w)).
Proof.
  unfold answered. repeat split.
  - unfold Render.request_reset, Render.sendOtpEmail. run_io.
    destruct (Sql.select_by_email _ _); cbn; eauto.
    destruct (smtp_ok env); cbn; eauto.
  - unfold Render.me. change (Render.verifyToken cfg) with (Production.verifyToken cfg).
    rewrite verifyToken_cases.
    destruct (bearer_claims cfg env header); [|cbn; eauto]. run_io.
    destruct (map _ _) as [|[i e] l]; cbn; eauto.
  - unfold Legacy.signup. destruct (validationResult email password); run_io; eauto.
    destruct (Sql.insert _ _ _) as [[e|] t']; cbn; eauto.
  - unfold Legacy.request_reset, Legacy.sendOtpEmail. run_io.
    destruct (smtp_ok env); cbn; eauto.
Qed.

(** ** The reset code across requests *)

Section ResetFlows.
Context {ext : Externals}.

Lemma legacy_request_reset_known (email : string) (env : Env) (w : World) :
  Legacy.request_reset email env w
  = (Returned (if smtp_ok env then ok "OTP sent to email"
               else mkResponse 500 (JError "Could not send OTP")),
     mkWorld (Sql.update_reset (otp_of_draw (random_draw env)) email (NOW env) (users1 w))
             (mkMail email (otp_of_draw (random_draw env)) :: outbox w)).
Proof.
  unfold Legacy.request_reset, Legacy.sendOtpEmail. run_io.
  destruct (smtp_ok env); reflexivity.
Qed.

(** No row of the address holds the submitted code: nothing matches. *)
Lemma select_reset_other_code (email otp : string) (now : Z) (t : Table) :
  (forall u, In u (Sql.select_by_email email t) -> Col.reset_otp u <> Some otp) ->
  Sql.select_reset email otp now t = [].
Proof.
  intros H. destruct (Sql.select_reset email otp now t) as [|u l] eqn:E; auto.
  assert (Hu : In u (Sql.select_reset email otp now t)) by (rewrite E; now left).
  apply select_reset_In in Hu as (Hin & He & Hotp & _).
  exfalso. apply (H u); auto. apply filter_In. split; auto. now apply email_is_refl.
Qed.

End ResetFlows.


(** X17. VerifyReset answers [INVALID_OR_EXPIRED_OTP], and writes nothing,
    whenever the address has no account or its account has no code pending:
    an unknown address is answered like a wrong code, not with 404. *)
Theorem verify_reset_without_code {ext : Externals} (email otp newPassword : string)
    (env : Env) (w : World) :
  (forall u, In u (Sql.select_by_email email (users1 w)) -> Col.reset_otp u = None) ->
  Production.verify_reset email otp newPassword env w = (Returned INVALID_OR_EXPIRED_OTP, w).
Proof.
  intros H. apply ProductionFacts.verify_reset_no_match. apply select_reset_other_code.
  intros u Hu. rewrite (H u Hu). discriminate.
Qed.

(** X18. After a successful VerifyReset the new password logs in: for an
    account with a pending unexpired code, VerifyReset with that code
    succeeds, a Login with the new password that follows answers 200 with
    the id and email of the account, and a Login with any password that
    does not verify against the new hash answers [INVALID_CREDENTIALS]. *)
Theorem reset_then_login {ext : Externals} (cfg : Config) (env env' : Env) (w : World)
    (account : User) (otp newPassword other : string) (expires : Z) :
  constraints (users1 w) ->
  In account (rows (users1 w)) ->
  Col.reset_otp account = Some otp ->
  Col.reset_expires account = Some expires ->
  NOW env < expires ->
  let hashed := Bcrypt.digest newPassword SALT_ROUNDS (gen_salt env) in
  let w1 := snd (Production.verify_reset (Col.email account) otp newPassword env w) in
  fst (Production.verify_reset (Col.email account) otp newPassword env w)
  = Returned (ok "Password reset successful") /\
  Production.login cfg (Col.email account) newPassword env' w1
  = (Returned (mkResponse 200
       (JSession (Jwt.sign_at (Col.id account) (Col.email account) (JWT_SECRET cfg) one_hour
                    (Date_now env'))
                 (Col.id account) (Col.email account))), w1) /\
  (Bcrypt.compare_digest other hashed = false ->
   Production.login cfg (Col.email account) other env' w1 = (Returned INVALID_CREDENTIALS, w1)).
Proof.
  intros Hc Hin Hotp Hexp Hnow hashed w1.
  assert (Hp : pending (Col.email account) otp (NOW env) (users1 w)).
  { intros E.
    assert (Hu : In account (Sql.select_reset (Col.email account) otp (NOW env) (users1 w))).
    { apply select_reset_In. repeat split; auto. eauto. }
    rewrite E in Hu. contradiction. }
  subst w1. rewrite (ProductionFacts.verify_reset_match _ _ _ _ _ Hp). cbn [fst snd].
  assert (Hsel : Sql.select_by_email (Col.email account)
                   (Sql.update_password_clear_reset hashed (Col.email account) (users1 w))
                 = [Sql.set_password_clear_reset hashed account]).
  { rewrite select_by_email_update_clear, (select_by_email_unique _ _ Hc Hin). cbn.
    unfold Sql.email_is. now rewrite String.eqb_refl. }
  split; [reflexivity|]. split.
  - apply ProductionFacts.login_match
      with (user := Sql.set_password_clear_reset hashed account) (rest := []);
      [exact Hsel | apply compare_digest_own].
  - intros Hother.
    apply ProductionFacts.login_mismatch
      with (user := Sql.set_password_clear_reset hashed account) (rest := []);
      [exact Hsel | exact Hother].
Qed.

(** X19. Mail leaves the Production routes in one case only: a RequestReset
    for a registered address with a transporter at hand, which hands over
    one mail, to the address of the request, with the very code it has just
    stored for that address.  Every other request leaves the outbox as it
    was. *)
Theorem mail_only_for_registered {ext : Externals} (cfg : Config) (r : Request) (env : Env)
    (w : World) :
  outbox (snd (handle cfg r env w)) = outbox w \/
  exists email,
    r = RequestReset email /\
    Sql.select_by_email email (users1 w) <> [] /\
    transporter cfg = true /\
    outbox (snd (handle cfg r env w))
    = mkMail email (otp_of_draw (random_draw env)) :: outbox w /\
    forall u, In u (Sql.select_by_email email (users1 (snd (handle cfg r env w)))) ->
              Col.reset_otp u = Some (otp_of_draw (random_draw env)).
Proof.
  destruct r; cbn [handle].
  - left. unfold Production.signup. destruct (validationResult email password); run_io; auto.
    destruct (0 <? _); cbn; auto.
    destruct (Sql.insert _ _ _) as [[e|] t']; cbn; auto.
  - left. unfold Production.login. run_io.
    destruct (Sql.select_by_email _ _); cbn; auto.
    destruct (Bcrypt.compare_digest _ _); cbn; auto.
  - destruct (Sql.select_by_email email (users1 w)) as [|u l] eqn:E.
    + left. now rewrite ProductionFacts.request_reset_unknown.
    + assert (Hreg : Sql.select_by_email email (users1 w) <> []) by (rewrite E; discriminate).
      rewrite (ProductionFacts.request_reset_known cfg _ _ _ Hreg).
      cbn [snd users1 outbox after_request_reset].
      destruct (transporter cfg) eqn:Ht; [right | now left].
      exists email. repeat split; auto.
      intros v Hv. now apply rows_after_update_reset in Hv.
  - left. unfold Production.verify_reset. run_io.
    destruct (Sql.select_reset _ _ _ _); cbn; auto.
  - left. unfold Production.change_password. rewrite verifyToken_cases.
    destruct (bearer_claims cfg env header); [|cbn; auto]. run_io.
    destruct (Sql.select_by_id _ _); cbn; auto.
    destruct (Bcrypt.compare_digest _ _); cbn; auto.
  - left. unfold Production.me. rewrite verifyToken_cases.
    destruct (bearer_claims cfg env header); [|cbn; auto]. run_io.
    destruct (map _ _) as [|[i e] l]; cbn; auto.
Qed.


(** X21. In the Legacy variant a reset request for a registered address stores
    its code before the mail is handed over, and a rejected delivery is
    answered with the catch-all 500 [{ error: 'Could not send OTP' }]: the
    stored code is accepted by VerifyReset within five minutes all the
    same. *)
Theorem legacy_reset_flow {ext : Externals} (env0 env1 : Env) (w : World)
    (email newPassword : string) :
  Sql.select_by_email email (users1 w) <> [] ->
  NOW env1 < NOW env0 + minutes 5 ->
  fst (Legacy.request_reset email env0 w)
  = Returned (if smtp_ok env0 then ok "OTP sent to email"
              else mkResponse 500 (JError "Could not send OTP")) /\
  fst (Legacy.verify_reset email (otp_of_draw (random_draw env0)) newPassword env1
         (snd (Legacy.request_reset email env0 w)))
  = Returned (ok "Password reset successful").
Proof.
  intros Hreg Hnow. rewrite legacy_request_reset_known. cbn [fst snd]. split; [reflexivity|].
  change Legacy.verify_reset with Production.verify_reset.
  rewrite ProductionFacts.verify_reset_match; [reflexivity|].
  cbn [users1]. now apply pending_after_update_reset.
Qed.

(** ** The variants side by side, and the ids *)

Section IdFacts.
Context {ext : Externals}.

Lemma consecutive_ids_update (p : User -> bool) (f : User -> User) (t : Table) :
  (forall u, Col.id (f u) = Col.id u) ->
  consecutive_ids t -> consecutive_ids (Sql.update_where p f t).
Proof.
  intros Hid [H1 H2]. unfold consecutive_ids, Sql.update_where. cbn.
  rewrite length_map, map_update_keeps by assumption. now split.
Qed.

Lemma consecutive_ids_insert (email : string) (pw : Digest) (t : Table) :
  Sql.select_by_email email t = [] ->
  consecutive_ids t -> consecutive_ids (snd (Sql.insert email pw t)).
Proof.
  intros Hfresh [H1 H2]. unfold consecutive_ids, Sql.insert.
  rewrite (select_by_email_nil_existsb _ _ Hfresh). cbn.
  rewrite length_app, Nat.add_comm. cbn [List.length Nat.add]. split; [lia|].
  rewrite seq_S, !map_app, H2. cbn. do 3 f_equal. lia.
Qed.

Lemma consecutive_ids_handle (cfg : Config) (r : Request) (env : Env) (w : World) :
  consecutive_ids (users1 w) -> consecutive_ids (users1 (snd (handle cfg r env w))).
Proof.
  intros H. destruct r; cbn [handle].
  - unfold Production.signup. destruct (validationResult email password); run_io; auto.
    destruct (Sql.select_by_email email (users1 w)) as [|u l] eqn:E; cbn; auto.
    pose proof (consecutive_ids_insert email
                  (Bcrypt.digest password SALT_ROUNDS (gen_salt env)) _ E H) as Hi.
    destruct (Sql.insert _ _ _) as [[e|] t']; cbn in *; auto.
  - unfold Production.login. run_io.
    destruct (Sql.select_by_email _ _); cbn; auto.
    destruct (Bcrypt.compare_digest _ _); cbn; auto.
  - unfold Production.request_reset, Production.sendOtpEmail. run_io.
    destruct (Sql.select_by_email _ _); cbn; auto.
    destruct (transporter cfg); run_io; [destruct (smtp_ok env)|]; cbn;
      now apply consecutive_ids_update.
  - unfold Production.verify_reset. run_io.
    destruct (Sql.select_reset _ _ _ _); cbn; auto.
    now apply consecutive_ids_update.
  - unfold Production.change_password. rewrite verifyToken_cases.
    destruct (bearer_claims cfg env header); [|cbn; auto]. run_io.
    destruct (Sql.select_by_id _ _); cbn; auto.
    destruct (Bcrypt.compare_digest _ _); cbn; auto.
    now apply consecutive_ids_update.
  - unfold Production.me. rewrite verifyToken_cases.
    destruct (bearer_claims cfg env header); [|cbn; auto]. run_io.
    destruct (map _ _) as [|[i e] l]; cbn; auto.
Qed.

End IdFacts.

(** X22. Served by the Production routes one request after the other, the
    store numbers its accounts 1, 2, 3, ... in the order of their signups
    and its sequence stands at their number: the lookup before the insert
    keeps a refused signup from using up an id.  The Legacy signup route,
    which inserts without a lookup, uses up an id on every refused signup. *)
Theorem ids_in_signup_order {ext : Externals} (cfg : Config) (session : list (Env * Request))
    (email password : string) (env : Env) (w : World) :
  consecutive_ids (users1 (serve cfg session empty_world)) /\
  (validationResult email password = [] ->
   Sql.select_by_email email (users1 w) <> [] ->
   rows (users1 (snd (Legacy.signup email password env w))) = rows (users1 w) /\
   last_id (users1 (snd (Legacy.signup email password env w))) = last_id (users1 w) + 1).
Proof.
  split.
  - assert (Hgen : forall w0, consecutive_ids (users1 w0) ->
                              consecutive_ids (users1 (serve cfg session w0))).
    { induction session as [|[env0 r] rest IH]; cbn; auto.
      intros w0 H0. apply IH. now apply consecutive_ids_handle. }
    apply Hgen. now split.
  - intros Hv Hreg. now rewrite (LegacyFacts.legacy_signup_registered _ _ _ _ Hv Hreg).
Qed.

(** X23. The Legacy variant differs from the Production variant in its
    missing lookups only.  Its signup gives the same answer and the same
    store unless the address is registered and the input valid; its reset
    request for a registered address gives the same status and the same
    store and outbox as the Production route run with a transporter; its
    verify-reset and change-password routes are the same functions. *)
Theorem legacy_agrees_with_production {ext : Externals} (cfg : Config) (email password : string)
    (env : Env) (w : World) :
  (validationResult email password <> [] \/ Sql.select_by_email email (users1 w) = [] ->
   Legacy.signup email password env w = Production.signup email password env w) /\
  (Sql.select_by_email email (users1 w) <> [] -> transporter cfg = true ->
   status_of (fst (Legacy.request_reset email env w))
   = status_of (fst (Production.request_reset cfg email env w)) /\
   snd (Legacy.request_reset email env w) = snd (Production.request_reset cfg email env w)) /\
  Legacy.verify_reset = Production.verify_reset /\
  Legacy.change_password cfg = Production.change_password cfg.
Proof.
  split; [|split; [|split; reflexivity]].
  - intros [Hv | Hfresh].
    + rewrite ProductionFacts.signup_invalid by exact Hv.
      unfold Legacy.signup. destruct (validationResult email password); [contradiction|].
      reflexivity.
    + destruct (validationResult email password) as [|x l] eqn:Hv.
      * rewrite (LegacyFacts.legacy_signup_fresh _ _ _ _ Hv Hfresh).
        now rewrite (ProductionFacts.signup_fresh _ _ _ _ Hv Hfresh).
      * rewrite ProductionFacts.signup_invalid by (rewrite Hv; discriminate).
        unfold Legacy.signup. now rewrite Hv.
  - intros Hreg Ht. rewrite legacy_request_reset_known.
    rewrite (ProductionFacts.request_reset_known cfg _ _ _ Hreg).
    unfold after_request_reset. rewrite Ht. cbn. destruct (smtp_ok env); auto.
Qed.
(** * Concrete runs

    The routes evaluated with the primitives of [Sample]. *)

#[local] Existing Instance Sample.ext.

Lemma C1_signup_then_login_witness :
  Sample.contains_at "a@x.com" = true /\
  (6 <= String.length "secret1")%nat /\
  Sql.select_by_email "a@x.com" (users1 empty_world) = [] /\
  fst (Production.signup "a@x.com" "secret1" Run.at_signup empty_world)
  = Returned (ok "Signup successful") /\
  exists token,
    fst (Production.login Sample.cfg "a@x.com" "secret1" Run.at_login Run.registered)
    = Returned (mkResponse 200 (JSession token 1 "a@x.com")).
Proof.
  split; [reflexivity|]. split; [cbn; lia|]. split; [reflexivity|].
  destruct (C1_signup_then_login Sample.cfg Run.at_signup Run.at_login empty_world
              "a@x.com" "secret1")
    as (Hs & account & token & Hsel & _ & Hl & _);
    [reflexivity | cbn; lia | reflexivity |].
  split; [exact Hs|].
  exists token. unfold Run.registered. rewrite Hl. cbn [fst]. vm_compute in Hsel.
  injection Hsel as <-. reflexivity.
Defined.

Lemma C2_reset_code_accepted_once_witness :
  Sql.select_by_email "a@x.com" (users1 Run.registered) <> [] /\
  NOW Run.in_time < NOW Run.smtp_down + minutes 5 /\
  pending "a@x.com" (otp_of_draw (random_draw Run.smtp_down)) (NOW Run.in_time)
    (users1 (snd (Production.request_reset Sample.cfg "a@x.com" Run.smtp_down Run.registered))) /\
  pending "a@x.com" "123456" (NOW Run.in_time) (users1 Run.reset_requested) /\
  fst (Production.verify_reset "a@x.com" "123456" "secret2" Run.in_time Run.reset_requested)
  = Returned (ok "Password reset successful") /\
  fst (Production.verify_reset "a@x.com" "123456" "secret3" Run.in_time
         (snd (Production.verify_reset "a@x.com" "123456" "secret2" Run.in_time
                 Run.reset_requested)))
  = Returned INVALID_OR_EXPIRED_OTP.
Proof.
  assert (Hreg : Sql.select_by_email "a@x.com" (users1 Run.registered) <> [])
    by (vm_compute; discriminate).
  assert (Hnow : NOW Run.in_time < NOW Run.smtp_down + minutes 5) by reflexivity.
  assert (Hp : pending "a@x.com" "123456" (NOW Run.in_time) (users1 Run.reset_requested))
    by (vm_compute; discriminate).
  destruct (C2_reset_code_accepted_once Sample.cfg Run.smtp_down Run.in_time Run.in_time
              Run.registered "a@x.com" "123456" "secret2" "secret3") as (_ & Hissued & _).
  destruct (C2_reset_code_accepted_once Sample.cfg Run.smtp_down Run.in_time Run.in_time
              Run.reset_requested "a@x.com" "123456" "secret2" "secret3") as (H & _ & _).
  destruct (H Hp) as (H1 & _ & H2).
  split; [exact Hreg|]. split; [exact Hnow|]. split; [exact (proj1 (Hissued Hreg Hnow))|].
  split; [exact Hp|]. rewrite H1. cbn [fst snd]. rewrite H2. split; reflexivity.
Defined.

(** C3.  The Legacy signup route on an address that is already registered:
    the insert is turned down by the [UNIQUE] constraint of the store, one
    account exists afterwards, and the route answers with its catch-all,
    status 500 and [{ error: 'Signup failed' }], which is not
    [DUPLICATE_ACCOUNT]. *)
Theorem C3_legacy_duplicate_signup :
  let first := Legacy.signup "a@x.com" "secret1" Run.at_signup empty_world in
  let second := Legacy.signup "a@x.com" "secret2" Run.at_login (snd first) in
  fst first = Returned (ok "Signup successful") /\
  fst second = Returned (mkResponse 500 (JError "Signup failed")) /\
  fst second <> Returned DUPLICATE_ACCOUNT /\
  accounts "a@x.com" (snd second) = 1%nat.
Proof. cbv zeta. repeat split. vm_compute. discriminate. Qed.

(** C4.  The Legacy request-reset route on an address that is not
    registered, here on the empty store: no row is updated, the code is
    handed to the transport for that address all the same, and the route
    answers by the fate of the mail: 500 with [{ error: 'Could not send
    OTP' }] when the delivery is rejected, 200 with [{ message: 'OTP sent
    to email' }] when it goes through; neither is [NOT_FOUND]. *)
Theorem C4_legacy_reset_unknown_address :
  Sql.select_by_email "ghost@x.com" (users1 empty_world) = [] /\
  Legacy.request_reset "ghost@x.com" Run.smtp_down empty_world
  = (Returned (mkResponse 500 (JError "Could not send OTP")),
     mkWorld empty_table [mkMail "ghost@x.com" "123456"]) /\
  Legacy.request_reset "ghost@x.com" Run.in_time empty_world
  = (Returned (ok "OTP sent to email"),
     mkWorld empty_table [mkMail "ghost@x.com" "100000"]) /\
  fst (Legacy.request_reset "ghost@x.com" Run.smtp_down empty_world) <> Returned NOT_FOUND /\
  fst (Legacy.request_reset "ghost@x.com" Run.in_time empty_world) <> Returned NOT_FOUND.
Proof. repeat split; vm_compute; discriminate. Qed.

Lemma C5_expired_code_rejected_witness :
  (forall u expires, In u (rows (users1 Run.reset_requested)) -> Col.email u = "a@x.com" ->
                     Col.reset_expires u = Some expires -> expires <= NOW Run.too_late) /\
  Production.verify_reset "a@x.com" "123456" "secret2" Run.too_late Run.reset_requested
  = (Returned INVALID_OR_EXPIRED_OTP, Run.reset_requested) /\
  NOW Run.smtp_down + minutes 5 <= NOW Run.too_late /\
  fst (Production.verify_reset "a@x.com" (otp_of_draw (random_draw Run.smtp_down)) "secret2"
         Run.too_late
         (snd (Production.request_reset Sample.cfg "a@x.com" Run.smtp_down Run.registered)))
  = Returned INVALID_OR_EXPIRED_OTP.
Proof.
  assert (Hexp : forall u expires, In u (rows (users1 Run.reset_requested)) ->
                   Col.email u = "a@x.com" -> Col.reset_expires u = Some expires ->
                   expires <= NOW Run.too_late).
  { intros u expires [<- | []] _ H. vm_compute in H. injection H as <-. vm_compute. discriminate. }
  assert (Hlate : NOW Run.smtp_down + minutes 5 <= NOW Run.too_late)
    by (vm_compute; discriminate).
  destruct (C5_expired_code_rejected Sample.cfg Run.smtp_down Run.too_late Run.reset_requested
              "a@x.com" "123456" "secret2") as (H1 & _).
  destruct (C5_expired_code_rejected Sample.cfg Run.smtp_down Run.too_late Run.registered
              "a@x.com" "123456" "secret2") as (_ & _ & H3 & _).
  split; [exact Hexp|]. split; [exact (H1 Hexp)|]. split; [exact Hlate|]. exact (H3 Hlate).
Defined.

Lemma C6_login_failures_alike_witness :
  Sql.select_by_email "nobody@x.com" (users1 Run.registered) = [] /\
  Sql.select_by_email "a@x.com" (users1 Run.registered) = [Run.account] /\
  Bcrypt.compare_digest "wrong" (Col.password Run.account) = false /\
  Production.login Sample.cfg "nobody@x.com" "secret1" Run.at_login Run.registered
  = (Returned INVALID_CREDENTIALS, Run.registered) /\
  Production.login Sample.cfg "a@x.com" "wrong" Run.at_login Run.registered
  = (Returned INVALID_CREDENTIALS, Run.registered).
Proof.
  split; [reflexivity|]. split; [reflexivity|]. split; [reflexivity|]. split.
  - apply (C6_login_failures_alike Sample.cfg Run.at_login Run.registered "nobody@x.com" "secret1").
    left. reflexivity.
  - apply (C6_login_failures_alike Sample.cfg Run.at_login Run.registered "a@x.com" "wrong").
    right. exists Run.account, []. split; reflexivity.
Defined.

Lemma C7_delivery_failure_keeps_code_witness :
  Sql.select_by_email "a@x.com" (users1 Run.registered) <> [] /\
  transporter Sample.cfg && smtp_ok Run.smtp_down = false /\
  fst (Production.request_reset Sample.cfg "a@x.com" Run.smtp_down Run.registered)
  = Returned DELIVERY_FAILED_production /\
  Sql.select_by_email "a@x.com" (users1 Run.reset_requested)
  = [mkUser 1 "a@x.com" (mkDigest 10 "s1" "s1/secret1") (Some "123456") (Some 2300000000)] /\
  fst (Render.request_reset "a@x.com" Run.smtp_down Run.registered)
  = Returned DELIVERY_FAILED_render.
Proof.
  assert (Hreg : Sql.select_by_email "a@x.com" (users1 Run.registered) <> [])
    by (vm_compute; discriminate).
  destruct (C7_delivery_failure_keeps_code Sample.cfg Run.smtp_down Run.in_time Run.registered
              "a@x.com" Hreg) as (Hp & Hr).
  destruct (Hp eq_refl) as (H1 & _). destruct (Hr eq_refl) as (H2 & _).
  split; [exact Hreg|]. split; [reflexivity|]. split; [exact H1|].
  split; [reflexivity | exact H2].
Defined.

Lemma C8_joint_invariant_kept_witness :
  joint_invariant (users1 Run.registered) /\
  joint_invariant
    (users1 (snd (handle Sample.cfg (RequestReset "a@x.com") Run.smtp_down Run.registered))) /\
  joint_invariant
    (users1 (serve Sample.cfg
               [(Run.at_signup, Signup "a@x.com" "secret1");
                (Run.smtp_down, RequestReset "a@x.com");
                (Run.in_time, VerifyReset "a@x.com" "123456" "secret2")]
               empty_world)).
Proof.
  assert (Hinv : joint_invariant (users1 Run.registered)).
  { repeat constructor. }
  split; [exact Hinv|]. split.
  - exact (proj1 (C8_joint_invariant_kept Sample.cfg Run.smtp_down (RequestReset "a@x.com")
                    Run.registered [] "a@x.com" "secret1" Run.account) Hinv).
  - exact (proj2 (proj2 (C8_joint_invariant_kept Sample.cfg Run.smtp_down (RequestReset "a@x.com")
                    Run.registered
                    [(Run.at_signup, Signup "a@x.com" "secret1");
                     (Run.smtp_down, RequestReset "a@x.com");
                     (Run.in_time, VerifyReset "a@x.com" "123456" "secret2")]
                    "a@x.com" "secret1" Run.account))).
Defined.

(** C9, as stated, fails where the new password is the old one: the change
    succeeds and the Login with the old password that follows succeeds too,
    with status 200, where the claim has [INVALID_CREDENTIALS]. *)
Lemma C9_old_password_still_logs_in :
  let changed :=
    Production.change_password Sample.cfg (Bearer Run.session) "secret1" "secret1"
      Run.in_time Run.registered in
  Jwt.verify_at Run.session (JWT_SECRET Sample.cfg) (Date_now Run.in_time)
  = inr (mkPayload 1 "a@x.com" 1060 4660) /\
  Bcrypt.compare_digest "secret1" (Col.password Run.account) = true /\
  fst changed = Returned (ok "Password changed") /\
  status_of (fst (Production.login Sample.cfg "a@x.com" "secret1" Run.too_late (snd changed)))
  = Some 200 /\
  fst (Production.login Sample.cfg "a@x.com" "secret1" Run.too_late (snd changed))
  <> Returned INVALID_CREDENTIALS.
Proof. cbv zeta. repeat split. vm_compute. discriminate. Qed.

Lemma C9_change_password_witness :
  constraints (users1 Run.registered) /\
  In Run.account (rows (users1 Run.registered)) /\
  Jwt.verify_at Run.session (JWT_SECRET Sample.cfg) (Date_now Run.in_time)
  = inr (mkPayload 1 "a@x.com" 1060 4660) /\
  Bcrypt.compare_digest "secret1" (Col.password Run.account) = true /\
  Bcrypt.compare_digest "secret1" (Bcrypt.digest "secret2" SALT_ROUNDS (gen_salt Run.in_time))
  = false /\
  fst (Production.change_password Sample.cfg (Bearer Run.session) "secret1" "secret2"
         Run.in_time Run.registered)
  = Returned (ok "Password changed") /\
  Production.login Sample.cfg "a@x.com" "secret1" Run.too_late
    (mkWorld (Sql.update_password (Bcrypt.digest "secret2" SALT_ROUNDS (gen_salt Run.in_time)) 1
                (users1 Run.registered)) (outbox Run.registered))
  = (Returned INVALID_CREDENTIALS,
     mkWorld (Sql.update_password (Bcrypt.digest "secret2" SALT_ROUNDS (gen_salt Run.in_time)) 1
                (users1 Run.registered)) (outbox Run.registered)) /\
  Production.change_password Sample.cfg (Bearer Run.session) "wrong" "secret2"
    Run.in_time Run.registered
  = (Returned INVALID_OLD_PASSWORD, Run.registered).
Proof.
  assert (Hc : constraints (users1 Run.registered)).
  { unfold constraints. cbn. repeat split; repeat constructor; cbn; try tauto; lia. }
  assert (Hin : In Run.account (rows (users1 Run.registered))) by (left; reflexivity).
  assert (Hv : Jwt.verify_at Run.session (JWT_SECRET Sample.cfg) (Date_now Run.in_time)
               = inr (mkPayload 1 "a@x.com" 1060 4660)) by reflexivity.
  assert (Hold : Bcrypt.compare_digest "secret1" (Col.password Run.account) = true)
    by reflexivity.
  assert (Hdiff : Bcrypt.compare_digest "secret1"
                    (Bcrypt.digest "secret2" SALT_ROUNDS (gen_salt Run.in_time)) = false)
    by reflexivity.
  assert (Hwrong : Bcrypt.compare_digest "wrong" (Col.password Run.account) = false)
    by reflexivity.
  destruct (C9_change_password Sample.cfg Run.in_time Run.too_late Run.registered Run.account
              Run.session (mkPayload 1 "a@x.com" 1060 4660) "secret1" "secret2"
              Hc Hin Hv eq_refl) as (Hok & _).
  destruct (C9_change_password Sample.cfg Run.in_time Run.too_late Run.registered Run.account
              Run.session (mkPayload 1 "a@x.com" 1060 4660) "wrong" "secret2"
              Hc Hin Hv eq_refl) as (_ & Hbad).
  destruct (Hok Hold) as (H1 & _ & _ & H4).
  split; [exact Hc|]. split; [exact Hin|]. split; [exact Hv|]. split; [exact Hold|].
  split; [exact Hdiff|]. split; [now rewrite H1|]. split; [exact (H4 Hdiff)|].
  exact (Hbad Hwrong).
Defined.

Lemma C10_no_minimum_on_new_password_witness :
  (String.length "" < 6)%nat /\
  pending "a@x.com" "123456" (NOW Run.in_time) (users1 Run.reset_requested) /\
  fst (Production.signup "b@x.com" "" Run.at_signup Run.registered)
  = Returned (VALIDATION_ERROR ["password"]) /\
  fst (Production.verify_reset "a@x.com" "123456" "" Run.in_time Run.reset_requested)
  = Returned (ok "Password reset successful") /\
  fst (Production.change_password Sample.cfg (Bearer Run.session) "secret1" ""
         Run.in_time Run.registered)
  = Returned (ok "Password changed") /\
  fst (Production.login Sample.cfg "a@x.com" "" Run.too_late
         (snd (Production.verify_reset "a@x.com" "123456" "" Run.in_time Run.reset_requested)))
  = Returned (mkResponse 200
      (JSession (Jwt.sign_at 1 "a@x.com" (JWT_SECRET Sample.cfg) one_hour (Date_now Run.too_late))
         1 "a@x.com")).
Proof.
  assert (Hshort : (String.length "" < 6)%nat) by (cbn; lia).
  assert (Hp : pending "a@x.com" "123456" (NOW Run.in_time) (users1 Run.reset_requested))
    by (vm_compute; discriminate).
  destruct (C10_no_minimum_on_new_password Sample.cfg Run.in_time Run.reset_requested
              "a@x.com" "123456" "secret1" "" Run.session (mkPayload 1 "a@x.com" 1060 4660)
              Run.account [] Hshort) as (_ & Hv & _).
  destruct (C10_no_minimum_on_new_password Sample.cfg Run.in_time Run.registered
              "a@x.com" "123456" "secret1" "" Run.session (mkPayload 1 "a@x.com" 1060 4660)
              Run.account [] Hshort) as (_ & _ & Hc).
  assert (Htok : Jwt.verify_at Run.session (JWT_SECRET Sample.cfg) (Date_now Run.in_time)
                 = inr (mkPayload 1 "a@x.com" 1060 4660)) by reflexivity.
  assert (Hsel : Sql.select_by_id (p_id (mkPayload 1 "a@x.com" 1060 4660)) (users1 Run.registered)
                 = [Run.account]) by reflexivity.
  assert (Hold : Bcrypt.compare_digest "secret1" (Col.password Run.account) = true)
    by reflexivity.
  destruct (Hv Hp) as (H1 & _). destruct (Hc Htok Hsel Hold) as (H2 & _).
  split; [exact Hshort|]. split; [exact Hp|]. split; [reflexivity|].
  split; [exact H1|]. split; [exact H2|]. reflexivity.
Defined.



Lemma failed_request_writes_nothing_witness :
  fst (handle Sample.cfg (Login "a@x.com" "wrong") Run.at_login Run.registered)
  = Returned INVALID_CREDENTIALS /\
  status INVALID_CREDENTIALS <> 200 /\
  (snd (handle Sample.cfg (Login "a@x.com" "wrong") Run.at_login Run.registered) = Run.registered \/
   exists email, Login "a@x.com" "wrong" = RequestReset email /\
                 INVALID_CREDENTIALS = DELIVERY_FAILED_production).
Proof.
  assert (H1 : fst (handle Sample.cfg (Login "a@x.com" "wrong") Run.at_login Run.registered)
               = Returned INVALID_CREDENTIALS) by reflexivity.
  assert (H2 : status INVALID_CREDENTIALS <> 200) by (cbn; lia).
  split; [exact H1|]. split; [exact H2|].
  exact (failed_request_writes_nothing Sample.cfg (Login "a@x.com" "wrong") Run.at_login
           Run.registered INVALID_CREDENTIALS H1 H2).
Defined.

Lemma unauthenticated_request_rejected_witness :
  bearer_claims Sample.cfg Case.after_expiry (Bearer Run.session) = None /\
  status_of (fst (Production.change_password Sample.cfg (Bearer Run.session) "secret1" "secret2"
                    Case.after_expiry Run.registered)) = Some 401 /\
  snd (Production.change_password Sample.cfg (Bearer Run.session) "secret1" "secret2"
         Case.after_expiry Run.registered) = Run.registered /\
  status_of (fst (Production.me Sample.cfg NoHeader Run.in_time Run.registered)) = Some 401.
Proof.
  assert (H : bearer_claims Sample.cfg Case.after_expiry (Bearer Run.session) = None)
    by reflexivity.
  destruct (unauthenticated_request_rejected Sample.cfg (Bearer Run.session) "secret1" "secret2"
              Case.after_expiry Run.registered H) as ((H1 & H2) & _).
  destruct (unauthenticated_request_rejected Sample.cfg NoHeader "" "" Run.in_time Run.registered
              eq_refl) as (_ & (H3 & _) & _).
  split; [exact H|]. split; [exact H1|]. split; [exact H2 | exact H3].
Defined.

Lemma login_then_profile_witness :
  constraints (users1 Run.registered) /\
  In Run.account (rows (users1 Run.registered)) /\
  Bcrypt.compare_digest "secret1" (Col.password Run.account) = true /\
  Jwt.seconds (Date_now Run.in_time) < Jwt.seconds (Date_now Run.at_login) + one_hour /\
  Jwt.seconds (Date_now Run.at_login) + one_hour <= Jwt.seconds (Date_now Case.after_expiry) /\
  exists token,
    Production.login Sample.cfg "a@x.com" "secret1" Run.at_login Run.registered
    = (Returned (mkResponse 200 (JSession token 1 "a@x.com")), Run.registered) /\
    Production.me Sample.cfg (Bearer token) Run.in_time Run.registered
    = (Returned (mkResponse 200 (JUser 1 "a@x.com")), Run.registered) /\
    Production.me Sample.cfg (Bearer token) Case.after_expiry Run.registered
    = (Returned (mkResponse 401 (JError "Invalid token")), Run.registered).
Proof.
  assert (Hc : constraints (users1 Run.registered)).
  { unfold constraints. cbn. repeat split; repeat constructor; cbn; try tauto; lia. }
  assert (Hin : In Run.account (rows (users1 Run.registered))) by (left; reflexivity).
  assert (Hpw : Bcrypt.compare_digest "secret1" (Col.password Run.account) = true)
    by reflexivity.
  assert (Hlive : Jwt.seconds (Date_now Run.in_time)
                  < Jwt.seconds (Date_now Run.at_login) + one_hour) by reflexivity.
  assert (Hdead : Jwt.seconds (Date_now Run.at_login) + one_hour
                  <= Jwt.seconds (Date_now Case.after_expiry)) by (vm_compute; discriminate).
  destruct (login_then_profile Sample.cfg Run.at_login Run.in_time Run.registered Run.account
              "secret1" Hc Hin Hpw) as (token & Hl & Hme & _).
  destruct (login_then_profile Sample.cfg Run.at_login Case.after_expiry Run.registered
              Run.account "secret1" Hc Hin Hpw) as (token' & Hl' & _ & Hout).
  assert (Heq : token' = token).
  { rewrite Hl in Hl'. now injection Hl'. }
  subst token'.
  split; [exact Hc|]. split; [exact Hin|]. split; [exact Hpw|]. split; [exact Hlive|].
  split; [exact Hdead|].
  exists token. split; [exact Hl|]. split; [exact (Hme Hlive) | exact (Hout Hdead)].
Defined.


Lemma change_password_without_account_witness :
  bearer_claims Sample.cfg Run.in_time (Bearer Run.session) = Some Case.claims /\
  Sql.select_by_id (p_id Case.claims) (users1 empty_world) = [] /\
  Production.change_password Sample.cfg (Bearer Run.session) "secret1" "secret2"
    Run.in_time empty_world
  = (Returned (mkResponse 500 (JError "Change password failed")), empty_world).
Proof.
  assert (H : bearer_claims Sample.cfg Run.in_time (Bearer Run.session) = Some Case.claims)
    by reflexivity.
  assert (Hgone : Sql.select_by_id (p_id Case.claims) (users1 empty_world) = [])
    by reflexivity.
  split; [exact H|]. split; [exact Hgone|].
  exact (proj1 (change_password_without_account Sample.cfg (Bearer Run.session) Case.claims
                  "secret1" "secret2" Run.in_time empty_world H Hgone)).
Defined.

Lemma constraints_kept_witness :
  constraints (users1 Run.registered) /\
  constraints (users1 (snd (handle Sample.cfg (Signup "b@x.com" "secret9") Run.at_login
                              Run.registered))).
Proof.
  assert (Hc : constraints (users1 Run.registered)).
  { unfold constraints. cbn. repeat split; repeat constructor; cbn; try tauto; lia. }
  split; [exact Hc|].
  exact (proj1 (constraints_kept Sample.cfg Run.at_login (Signup "b@x.com" "secret9")
                  Run.registered [] "b@x.com") Hc).
Defined.

Lemma concurrent_signups_witness :
  validationResult "a@x.com" "secret1" = [] /\
  validationResult "a@x.com" "secret2" = [] /\
  Sql.select_by_email "a@x.com" (users1 empty_world) = [] /\
  exists w2,
    signup_race "a@x.com" "secret1" "secret2" Run.at_signup Run.at_login empty_world
    = (Returned (ok "Signup successful"),
       Returned (mkResponse 500 (JError "Signup failed")), w2) /\
    accounts "a@x.com" w2 = 1%nat.
Proof.
  split; [reflexivity|]. split; [reflexivity|]. split; [reflexivity|].
  exact (proj1 (concurrent_signups "a@x.com" "secret1" "secret2" Run.at_signup Run.at_login
                  empty_world eq_refl eq_refl eq_refl)).
Defined.

Lemma other_accounts_untouched_witness :
  bearer_claims Sample.cfg Run.in_time (Bearer Run.session) = Some Case.claims /\
  filter (fun u => negb (Sql.id_is (p_id Case.claims) u))
    (rows (users1 (snd (Production.change_password Sample.cfg (Bearer Run.session)
                          "secret1" "secret2" Run.in_time Run.registered))))
  = filter (fun u => negb (Sql.id_is (p_id Case.claims) u)) (rows (users1 Run.registered)).
Proof.
  assert (H : bearer_claims Sample.cfg Run.in_time (Bearer Run.session) = Some Case.claims)
    by reflexivity.
  split; [exact H|].
  exact (proj2 (proj2 (other_accounts_untouched Sample.cfg "a@x.com" "123456" "secret2"
                         (Bearer Run.session) Case.claims "secret1" Run.in_time
                         Run.registered)) H).
Defined.

Lemma pending_code_outlives_witness :
  resets (ChangePassword (Bearer Run.session) "secret1" "secret2") = false /\
  pending "a@x.com" "123456" (NOW Run.in_time) (users1 Run.reset_requested) /\
  fst (handle Sample.cfg (ChangePassword (Bearer Run.session) "secret1" "secret2")
         Run.in_time Run.reset_requested)
  = Returned (ok "Password changed") /\
  pending "a@x.com" "123456" (NOW Run.in_time)
    (users1 (snd (handle Sample.cfg (ChangePassword (Bearer Run.session) "secret1" "secret2")
                    Run.in_time Run.reset_requested))).
Proof.
  assert (Hp : pending "a@x.com" "123456" (NOW Run.in_time) (users1 Run.reset_requested))
    by (vm_compute; discriminate).
  split; [reflexivity|]. split; [exact Hp|]. split; [reflexivity|].
  exact (pending_code_outlives Sample.cfg (ChangePassword (Bearer Run.session) "secret1" "secret2")
           Run.in_time Run.reset_requested "a@x.com" "123456" (NOW Run.in_time) eq_refl Hp).
Defined.


Lemma verify_reset_without_code_witness :
  (forall u, In u (Sql.select_by_email "a@x.com" (users1 Run.registered)) ->
             Col.reset_otp u = None) /\
  Production.verify_reset "a@x.com" "123456" "secret2" Run.in_time Run.registered
  = (Returned INVALID_OR_EXPIRED_OTP, Run.registered) /\
  Production.verify_reset "ghost@x.com" "123456" "secret2" Run.in_time Run.registered
  = (Returned INVALID_OR_EXPIRED_OTP, Run.registered).
Proof.
  assert (H : forall u, In u (Sql.select_by_email "a@x.com" (users1 Run.registered)) ->
                        Col.reset_otp u = None).
  { intros u [<- | []]. reflexivity. }
  assert (H' : forall u, In u (Sql.select_by_email "ghost@x.com" (users1 Run.registered)) ->
                         Col.reset_otp u = None).
  { intros u []. }
  split; [exact H|]. split.
  - exact (verify_reset_without_code "a@x.com" "123456" "secret2" Run.in_time Run.registered H).
  - exact (verify_reset_without_code "ghost@x.com" "123456" "secret2" Run.in_time
             Run.registered H').
Defined.

Lemma reset_then_login_witness :
  constraints (users1 Run.reset_requested) /\
  In Case.resetting (rows (users1 Run.reset_requested)) /\
  NOW Run.in_time < 2300000000 /\
  Bcrypt.compare_digest "secret1" (Bcrypt.digest "secret2" SALT_ROUNDS (gen_salt Run.in_time))
  = false /\
  fst (Production.verify_reset "a@x.com" "123456" "secret2" Run.in_time Run.reset_requested)
  = Returned (ok "Password reset successful") /\
  status_of (fst (Production.login Sample.cfg "a@x.com" "secret2" Run.too_late
                    (snd (Production.verify_reset "a@x.com" "123456" "secret2" Run.in_time
                            Run.reset_requested))))
  = Some 200 /\
  fst (Production.login Sample.cfg "a@x.com" "secret1" Run.too_late
         (snd (Production.verify_reset "a@x.com" "123456" "secret2" Run.in_time
                 Run.reset_requested)))
  = Returned INVALID_CREDENTIALS.
Proof.
  assert (Hc : constraints (users1 Run.reset_requested)).
  { unfold constraints. cbn. repeat split; repeat constructor; cbn; try tauto; lia. }
  assert (Hin : In Case.resetting (rows (users1 Run.reset_requested))) by (left; reflexivity).
  assert (Hnow : NOW Run.in_time < 2300000000) by reflexivity.
  assert (Hother : Bcrypt.compare_digest "secret1"
                     (Bcrypt.digest "secret2" SALT_ROUNDS (gen_salt Run.in_time)) = false)
    by reflexivity.
  destruct (reset_then_login Sample.cfg Run.in_time Run.too_late Run.reset_requested
              Case.resetting "123456" "secret2" "secret1" 2300000000
              Hc Hin eq_refl eq_refl Hnow) as (H1 & H2 & H3).
  split; [exact Hc|]. split; [exact Hin|]. split; [exact Hnow|]. split; [exact Hother|].
  split; [exact H1|]. split.
  - exact (f_equal (fun x => status_of (fst x)) H2).
  - exact (f_equal fst (H3 Hother)).
Defined.


Lemma legacy_reset_flow_witness :
  Sql.select_by_email "a@x.com" (users1 Run.registered) <> [] /\
  NOW Run.in_time < NOW Run.smtp_down + minutes 5 /\
  fst (Legacy.request_reset "a@x.com" Run.smtp_down Run.registered)
  = Returned (mkResponse 500 (JError "Could not send OTP")) /\
  fst (Legacy.verify_reset "a@x.com" "123456" "secret2" Run.in_time
         (snd (Legacy.request_reset "a@x.com" Run.smtp_down Run.registered)))
  = Returned (ok "Password reset successful").
Proof.
  assert (Hreg : Sql.select_by_email "a@x.com" (users1 Run.registered) <> [])
    by (vm_compute; discriminate).
  assert (Hnow : NOW Run.in_time < NOW Run.smtp_down + minutes 5) by reflexivity.
  split; [exact Hreg|]. split; [exact Hnow|].
  exact (legacy_reset_flow Run.smtp_down Run.in_time Run.registered "a@x.com" "secret2"
           Hreg Hnow).
Defined.

Lemma ids_in_signup_order_witness :
  validationResult "a@x.com" "secret2" = [] /\
  Sql.select_by_email "a@x.com" (users1 Run.registered) <> [] /\
  rows (users1 (snd (Legacy.signup "a@x.com" "secret2" Run.at_login Run.registered)))
  = rows (users1 Run.registered) /\
  last_id (users1 (snd (Legacy.signup "a@x.com" "secret2" Run.at_login Run.registered))) = 2 /\
  consecutive_ids
    (users1 (serve Sample.cfg
               [(Run.at_signup, Signup "a@x.com" "secret1");
                (Run.at_login, Signup "a@x.com" "secret2");
                (Run.at_login, Signup "b@x.com" "secret3")]
               empty_world)).
Proof.
  assert (Hreg : Sql.select_by_email "a@x.com" (users1 Run.registered) <> [])
    by (vm_compute; discriminate).
  destruct (ids_in_signup_order Sample.cfg
              [(Run.at_signup, Signup "a@x.com" "secret1");
               (Run.at_login, Signup "a@x.com" "secret2");
               (Run.at_login, Signup "b@x.com" "secret3")]
              "a@x.com" "secret2" Run.at_login Run.registered) as (Hids & Hburn).
  destruct (Hburn eq_refl Hreg) as (Hrows & Hlast).
  split; [reflexivity|]. split; [exact Hreg|]. split; [exact Hrows|].
  split; [exact Hlast | exact Hids].
Defined.

Lemma legacy_agrees_with_production_witness :
  Sql.select_by_email "b@x.com" (users1 Run.registered) = [] /\
  Legacy.signup "b@x.com" "secret9" Run.at_login Run.registered
  = Production.signup "b@x.com" "secret9" Run.at_login Run.registered /\
  Sql.select_by_email "a@x.com" (users1 Run.registered) <> [] /\
  transporter Sample.cfg = true /\
  snd (Legacy.request_reset "a@x.com" Run.smtp_down Run.registered) = Run.reset_requested.
Proof.
  assert (Hfresh : Sql.select_by_email "b@x.com" (users1 Run.registered) = []) by reflexivity.
  assert (Hreg : Sql.select_by_email "a@x.com" (users1 Run.registered) <> [])
    by (vm_compute; discriminate).
  destruct (legacy_agrees_with_production Sample.cfg "b@x.com" "secret9" Run.at_login
              Run.registered) as (Hs & _).
  destruct (legacy_agrees_with_production Sample.cfg "a@x.com" "secret9" Run.smtp_down
              Run.registered) as (_ & Hr & _).
  split; [exact Hfresh|]. split; [exact (Hs (or_intror Hfresh))|]. split; [exact Hreg|].
  split; [reflexivity|]. exact (proj2 (Hr Hreg eq_refl)).
Defined.
